(** * Lab Pi services: camera monitor, sensor reader and bridge API

    A shallow embedding of the three services under [src/services]:
    - [camera_monitor.py]: capture loop and the retention sweep,
    - [sensor_reader.py]: sensor acquisition, threshold alerts, CSV log,
    - [lab_bridge.py]: the HTTP handlers reading the same files.

    Conventions of the model.
    - Wall-clock seconds, modification times, sensor values and configured
      bounds are Python floats in the source; they are rationals ([Qc])
      here, so arithmetic is exact and NaN does not occur.
    - A [datetime] is its number of microseconds since 0001-01-01T00:00:00,
      with the range check that Python performs written out.
    - A directory is a finite map from file names to regular files.  The
      order in which the operating system enumerates a directory is an
      explicit argument ([listing]) of every function that globs.
    - A Python exception is a value of [exn]; code that can raise returns a
      [result].
    - Calls to [logging] are not modelled. *)

From Stdlib Require Import ZArith QArith Qcanon Qround Lqa Ascii String List Sorted.
From stdpp Require Import base option list numbers strings gmap sorting.

(** ** Exceptions and effects *)

Inductive exn : Set :=
  | FileNotFoundError
  | OSError
  | ValueError
  | KeyError
  | TypeError
  | OverflowError
  | AttributeError.

#[global] Instance exn_eq_dec : EqDecision exn.
Proof. solve_decision. Defined.

(** A computation that returns or raises. *)
Inductive result (A : Type) : Type :=
  | Ok (a : A)
  | Raise (e : exn).
Arguments Ok {A} a.
Arguments Raise {A} e.

#[global] Instance result_ret : MRet result := λ A a, Ok a.
#[global] Instance result_bind : MBind result := λ A B k r,
  match r with
  | Ok a => k a
  | Raise e => Raise e
  end.

#[global] Instance result_fmap : FMap result := λ A B f r,
  match r with
  | Ok a => Ok (f a)
  | Raise e => Raise e
  end.

(** A computation over a mutable world [S]: what was written before an
    exception is raised stays written. *)
Definition io (S A : Type) : Type := S → S * result A.

#[global] Instance io_ret {S} : MRet (io S) := λ A a s, (s, Ok a).
#[global] Instance io_bind {S} : MBind (io S) := λ A B k m s,
  match m s with
  | (s', Ok a) => k a s'
  | (s', Raise e) => (s', Raise e)
  end.

Definition raise {S A} (e : exn) : io S A := λ s, (s, Raise e).
Definition get {S} : io S S := λ s, (s, Ok s).
Definition modify {S} (f : S → S) : io S unit := λ s, (f s, Ok tt).
Definition lift_result {S A} (r : result A) : io S A := λ s, (s, r).

(** [try: m except Exception as e: h e] *)
Definition try_except {S A} (m : io S A) (h : exn → io S A) : io S A := λ s,
  match m s with
  | (s', Ok a) => (s', Ok a)
  | (s', Raise e) => h e s'
  end.

(** ** Strings *)

(** [s.endswith(suf)] *)
Definition ends_with (suf s : string) : bool :=
  let n := String.length s in
  let m := String.length suf in
  (m <=? n)%nat && String.eqb (substring (n - m) m s) suf.

(** [s.startswith(pre)] *)
Fixpoint starts_with (pre s : string) : bool :=
  match pre with
  | EmptyString => true
  | String a pre' =>
      match s with
      | EmptyString => false
      | String b s' => Ascii.eqb a b && starts_with pre' s'
      end
  end.

(** [sub in s] *)
Definition contains (sub s : string) : Prop :=
  ∃ pre post, s = pre +:+ sub +:+ post.

(** Python orders [str] by code point; on UTF-8 encoded text that is the
    byte-wise lexicographic order [String.leb]. *)
Definition str_le (a b : string) : Prop := String.leb a b = true.

#[global] Instance str_le_dec : RelDecision str_le.
Proof. intros a b. unfold str_le. apply _. Defined.

(** ** Files and directories *)

Record file : Type := mkFile {
  mtime : Qc;        (* [os.path.getmtime], seconds since the epoch *)
  content : string;  (* the bytes of the file *)
}.

Abbreviation dir := (gmap string file).

(** The operating system's enumeration of a directory: every name once, in
    an order the program does not control. *)
Definition lists_dir (listing : list string) (d : dir) : Prop :=
  listing ≡ₚ (map_to_list d).*1.

(** [glob.glob(os.path.join(D, "*.jpg"))]: the names ending in [.jpg];
    a pattern that does not start with a dot never matches a name that
    does. *)
Definition glob_match_jpg (name : string) : bool :=
  negb (starts_with "." name) && ends_with ".jpg" name.

Definition glob_jpg (listing : list string) : list string :=
  filter (λ n, glob_match_jpg n = true) listing.

(** ** camera_monitor.py *)

Module CameraMonitor.

Record camera_cfg : Type := mkCameraCfg {
  device : string;
  interval_seconds : Qc;
  keep_hours : Qc;
  upload_to_server : bool;
}.

(** [load_config]'s defaults. *)
Definition default_camera_cfg : camera_cfg :=
  {| device := "/dev/video0";
     interval_seconds := Qc_of_Z 30;
     keep_hours := Qc_of_Z 24;
     upload_to_server := false |}.

(** What the loop does that can be observed from outside, in order. *)
Inductive event : Type :=
  | EvCapture                    (* [capture_frame] was called *)
  | EvSaved (path : string)      (* [save_frame] wrote a file *)
  | EvUpload (path : string)     (* [upload_frame] was called *)
  | EvSweep                      (* [cleanup_old_images] was called *)
  | EvLogError (e : exn)         (* the handler of the loop logged [e] *)
  | EvSleep (seconds : Qc).      (* [time.sleep(interval)] *)

#[global] Instance event_eq_dec : EqDecision event.
Proof. solve_decision. Defined.

Record world : Type := mkWorld {
  cam_dir : dir;             (* ~/lab-data/camera *)
  trace : list event;
}.

Definition emit (ev : event) : io world unit :=
  modify (λ w, mkWorld (cam_dir w) (trace w ++ [ev])).

(** Run a computation on the camera directory inside the world. *)
Definition on_dir {A} (m : io dir A) : io world A := λ w,
  let '(d', r) := m (cam_dir w) in (mkWorld d' (trace w), r).

(** *** The camera *)

(** [cv2.VideoCapture(dev_index)] *)
Record video_capture : Type := mkVideoCapture {
  isOpened : bool;
  read : result (bool * option string);   (* [(ret, frame)] *)
}.

Record camera_hw : Type := mkCameraHw {
  HAS_CV2 : bool;
  (* [int(device_path.replace("/dev/video", ""))], 0 on [ValueError] *)
  dev_index : string → Z;
  VideoCapture : Z → video_capture;
  (* [cv2.imencode(".jpg", frame)]: [(success, buf.tobytes())] *)
  imencode : string → result (bool * string);
}.

Definition capture_frame (hw : camera_hw) (device_path : string)
    : result (option string) :=
  if negb (HAS_CV2 hw) then Ok None
  else
    let cap := VideoCapture hw (dev_index hw device_path) in
    if negb (isOpened cap) then Ok None
    else
      '(ret, frame) ← read cap;
      match ret, frame with
      | true, Some fr =>
          '(success, buf) ← imencode hw fr;
          if negb success then Ok None else Ok (Some buf)
      | _, _ => Ok None
      end.

(** *** What one iteration is given by its surroundings *)

Record iter_env : Type := mkIterEnv {
  hw : camera_hw;
  stamp : string;             (* [now().strftime("%Y%m%d_%H%M%S")] at the save *)
  save_fault : option exn;    (* [open(path, "wb")] raises this, if any *)
  clock : Qc;                 (* [time.time()], also the new file's mtime *)
  listdir : dir → list string;  (* enumeration order of the directory *)
}.

(** [save_frame] *)
Definition save_frame (env : iter_env) (image_bytes : string) : io world string :=
  match save_fault env with
  | Some e => raise e
  | None =>
      let path := stamp env +:+ ".jpg" in
      on_dir (modify (<[path := mkFile (clock env) image_bytes]>)) ;;
      emit (EvSaved path) ;;
      mret path
  end.

(** [upload_frame]: every failure is caught inside; nothing local changes. *)
Definition upload_frame (path : string) : io world unit := emit (EvUpload path).

(** [cleanup_old_images]: the body of the [for] loop, then the loop over the
    globbed paths.  [os.path.getmtime] raises on a path that is gone. *)
Definition cleanup_step (cutoff : Qc) (path : string) : io dir unit :=
  d ← get;
  match d !! path with
  | None => raise FileNotFoundError
  | Some f =>
      if bool_decide (mtime f < cutoff)%Qc then modify (delete path)
      else mret tt
  end.

Fixpoint cleanup_loop (cutoff : Qc) (paths : list string) : io dir unit :=
  match paths with
  | [] => mret tt
  | path :: rest => cleanup_step cutoff path ;; cleanup_loop cutoff rest
  end.

Definition sweep_cutoff (now keep_hours : Qc) : Qc :=
  (now - keep_hours * Qc_of_Z 3600)%Qc.

Definition cleanup_old_images (now keep_hours : Qc) (listing : list string)
    : io dir unit :=
  let cutoff := sweep_cutoff now keep_hours in
  cleanup_loop cutoff (glob_jpg listing).

(** [if image_bytes:] is false for [None] and for the empty bytes. *)
Definition truthy_bytes (b : option string) : option string :=
  match b with
  | Some "" => None
  | other => other
  end.

(** The [try] block of [main]'s loop. *)
Definition loop_body (cfg : camera_cfg) (env : iter_env) : io world unit :=
  emit EvCapture ;;
  image_bytes ← lift_result (capture_frame (hw env) (device cfg));
  match truthy_bytes image_bytes with
  | Some b =>
      path ← save_frame env b;
      if upload_to_server cfg then upload_frame path else mret tt
  | None => mret tt
  end ;;
  emit EvSweep ;;
  w ← get;
  on_dir (cleanup_old_images (clock env) (keep_hours cfg) (listdir env (cam_dir w))).

(** One turn of [while True]. *)
Definition iteration (cfg : camera_cfg) (env : iter_env) : io world unit :=
  try_except (loop_body cfg env) (λ e, emit (EvLogError e)) ;;
  emit (EvSleep (interval_seconds cfg)).

End CameraMonitor.

(** ** sensor_reader.py *)

Module SensorReader.

Record sensor_cfg : Type := mkSensorCfg {
  ph_enabled : bool;
  temp_enabled : bool;
  read_interval_seconds : Qc;
  ph_range : Qc * Qc;
  temp_range : Qc * Qc;
  simulate : bool;
}.

Record config : Type := mkConfig {
  sensors : sensor_cfg;
  neverot_server : string;
}.

Definition Qc_of_decimal (units hundredths : Z) : Qc :=
  (Qc_of_Z units + Qc_of_Z hundredths / Qc_of_Z 100)%Qc.

(** [load_config]'s defaults. *)
Definition default_sensor_cfg : sensor_cfg :=
  {| ph_enabled := true;
     temp_enabled := true;
     read_interval_seconds := Qc_of_Z 10;
     ph_range := (Qc_of_Z 4, Qc_of_Z 10);
     temp_range := (Qc_of_Z 15, Qc_of_Z 45);
     simulate := false |}.

Definition default_config : config :=
  {| sensors := default_sensor_cfg; neverot_server := "192.168.1.100:8000" |}.

Definition PH_I2C_ADDR : Z := 0x63.
Definition TEMP_I2C_ADDR : Z := 0x66.

(** *** The I2C bus *)

(** An open [smbus2.SMBus]: the 16 byte block an address answers with after
    the read command, or the exception the transfer raises. *)
Definition bus : Type := Z → result (list Z).

Section Acquisition.

(** [float(s)]: [None] stands for [ValueError]. *)
Variable py_float : string → option Qc.

Definition chr (b : Z) : ascii := ascii_of_N (Z.to_N b).

Definition value_str (raw : list Z) : string :=
  string_of_list_ascii (chr <$> filter (λ b : Z, b ≠ 0%Z) (tail raw)).

(** [read_i2c_sensor]: every exception is swallowed into [None]. *)
Definition read_i2c_sensor (b : bus) (addr : Z) : option Qc :=
  match b addr with
  | Raise _ => None
  | Ok raw =>
      match raw with
      | [] => None                       (* [raw[0]] raises [IndexError] *)
      | status :: _ =>
          if bool_decide (status = 1%Z) then py_float (value_str raw) else None
      end
  end.

(** [random.uniform(a, b)] is [a + (b - a) * random()], with [random()] in
    [[0, 1)] handed in as [u]. *)
Definition uniform (a b u : Qc) : Qc := (a + (b - a) * u)%Qc.

(** [round(x, 2)]: to the nearest hundredth, ties to the even one. *)
Definition round_half_even (x : Qc) : Z :=
  let f := Qfloor x in
  let r := (x - Qc_of_Z f)%Qc in
  if bool_decide (r < Qc_of_decimal 0 50)%Qc then f
  else if bool_decide (Qc_of_decimal 0 50 < r)%Qc then (f + 1)%Z
  else if Z.even f then f else (f + 1)%Z.

Definition round2 (x : Qc) : Qc :=
  (Qc_of_Z (round_half_even (x * Qc_of_Z 100)) / Qc_of_Z 100)%Qc.

Definition read_ph (b : option bus) (simulate : bool) (u : Qc) : option Qc :=
  if simulate then Some (round2 (uniform (Qc_of_decimal 6 50) (Qc_of_decimal 7 50) u))
  else
    match b with
    | None => None
    | Some b => read_i2c_sensor b PH_I2C_ADDR
    end.

Definition read_temperature (b : option bus) (simulate : bool) (u : Qc) : option Qc :=
  if simulate then Some (round2 (uniform (Qc_of_Z 22) (Qc_of_Z 26) u))
  else
    match b with
    | None => None
    | Some b => read_i2c_sensor b TEMP_I2C_ADDR
    end.

(** *** Startup: lines 163 to 178 of [main] *)

Record startup_env : Type := mkStartupEnv {
  HAS_I2C : bool;                (* [import smbus2] succeeded *)
  open_bus : result bus;         (* [smbus2.SMBus(I2C_BUS)] *)
}.

(** The pair [(bus, simulate)] the loop runs with. *)
Definition startup (env : startup_env) (cfg : sensor_cfg) : option bus * bool :=
  let simulate := simulate cfg in
  if HAS_I2C env && negb simulate then
    match open_bus env with
    | Ok b => (Some b, simulate)
    | Raise _ => (None, if negb simulate then true else simulate)
    end
  else (None, simulate).

(** The two reads of one iteration; [u_ph] and [u_temp] are the random
    draws. *)
Definition acquire (cfg : sensor_cfg) (st : option bus * bool) (u_ph u_temp : Qc)
    : option Qc * option Qc :=
  let '(b, simulate) := st in
  (if ph_enabled cfg then read_ph b simulate u_ph else None,
   if temp_enabled cfg then read_temperature b simulate u_temp else None).

End Acquisition.

(** *** The CSV log and the outgoing alerts *)

(** A value handed to [csv.writer]. *)
Inductive cell : Type :=
  | CStr (s : string)
  | CNum (x : Qc).

#[global] Instance cell_eq_dec : EqDecision cell.
Proof. solve_decision. Defined.

Abbreviation csv_row := (list cell).

Record world : Type := mkWorld {
  csv_file : option (list csv_row);        (* readings.csv; [None]: no file *)
  outbox : list (string * list string);    (* POSTs to [/api/alerts] *)
}.

Definition header_row : csv_row := [CStr "timestamp"; CStr "ph"; CStr "temp_c"].

Definition opt_cell (v : option Qc) : cell :=
  match v with
  | Some x => CNum x
  | None => CStr ""
  end.

Definition data_row (timestamp : string) (ph temp : option Qc) : csv_row :=
  [CStr timestamp; opt_cell ph; opt_cell temp].

(** [os.path.exists(CSV_PATH)] *)
Definition csv_exists (w : world) : bool :=
  match csv_file w with
  | Some _ => true
  | None => false
  end.

(** The rows one call of [write_csv] hands to [writer.writerow]. *)
Definition rows_written (write_header : bool) (timestamp : string)
    (ph temp : option Qc) : list csv_row :=
  (if write_header then [header_row] else []) ++ [data_row timestamp ph temp].

(** [write_csv]: mode ["a"] creates the file when it is missing. *)
Definition write_csv (timestamp : string) (ph temp : option Qc) (w : world) : world :=
  let write_header := negb (csv_exists w) in
  let old := default [] (csv_file w) in
  mkWorld (Some (old ++ rows_written write_header timestamp ph temp)) (outbox w).

Section Alerts.

(** How an f-string renders a float. *)
Variable str_float : Qc → string.

(** Whether [import requests] succeeded. *)
Variable HAS_REQUESTS : bool.

Definition ph_message (ph ph_min ph_max : Qc) : string :=
  "⚠️ pH OUT OF RANGE: " +:+ str_float ph +:+ " (expected "
    +:+ str_float ph_min +:+ "-" +:+ str_float ph_max +:+ ")".

Definition temp_message (temp temp_min temp_max : Qc) : string :=
  "⚠️ Temperature OUT OF RANGE: " +:+ str_float temp +:+ "°C (expected "
    +:+ str_float temp_min +:+ "-" +:+ str_float temp_max +:+ "°C)".

Definition out_of_range (v lo hi : Qc) : bool :=
  bool_decide (v < lo)%Qc || bool_decide (hi < v)%Qc.

(** The alerts list as [check_alerts] builds it. *)
Definition alerts_of (ph temp : option Qc) (cfg : sensor_cfg) : list string :=
  let alerts := [] in
  let alerts :=
    match ph with
    | Some ph =>
        let '(ph_min, ph_max) := ph_range cfg in
        if out_of_range ph ph_min ph_max
        then alerts ++ [ph_message ph ph_min ph_max] else alerts
    | None => alerts
    end in
  let alerts :=
    match temp with
    | Some temp =>
        let '(temp_min, temp_max) := temp_range cfg in
        if out_of_range temp temp_min temp_max
        then alerts ++ [temp_message temp temp_min temp_max] else alerts
    | None => alerts
    end in
  alerts.

(** [check_alerts]: the POST is attempted when there is something to send
    and [requests] is there; whether it arrives changes nothing here. *)
Definition check_alerts (ph temp : option Qc) (cfg : config) (w : world)
    : world * list string :=
  let alerts := alerts_of ph temp (sensors cfg) in
  let w' :=
    match alerts with
    | [] => w
    | _ :: _ =>
        if HAS_REQUESTS
        then mkWorld (csv_file w) (outbox w ++ [(neverot_server cfg, alerts)])
        else w
    end in
  (w', alerts).

End Alerts.

End SensorReader.

(** ** lab_bridge.py *)

Module LabBridge.

(** *** JSON values and responses *)

#[warnings="-register-all"] Inductive json : Type :=
  | JNull
  | JBool (b : bool)
  | JNum (x : Qc)
  | JStr (s : string)
  | JArr (items : list json)
  | JObj (fields : list (string * json)).

(** Python's truth value of a decoded JSON value. *)
Definition truthy (j : json) : bool :=
  match j with
  | JNull => false
  | JBool b => b
  | JNum x => negb (bool_decide (x = Qc_of_Z 0))
  | JStr s => negb (bool_decide (s = ""))
  | JArr items => negb (bool_decide (length items = 0%nat))
  | JObj fields => negb (bool_decide (length fields = 0%nat))
  end.

(** [dict.get(key)] on a decoded object: of two equal keys the later one
    is the one the decoder kept. *)
Fixpoint fields_get (fields : list (string * json)) (key : string) : option json :=
  match fields with
  | [] => None
  | (k, v) :: rest =>
      match fields_get rest key with
      | Some v' => Some v'
      | None => if bool_decide (k = key) then Some v else None
      end
  end.

Inductive response : Type :=
  | SendFile (mimetype : string) (data : string)
  | JsonResponse (status : Z) (body : json)
  | TextResponse (status : Z) (mimetype : string) (body : string)
  | InternalServerError.


(** *** The files the bridge reads and writes *)

Record world : Type := mkWorld {
  camera_dir : dir;                         (* ~/lab-data/camera *)
  sensor_csv : option (list (list string)); (* readings.csv as [csv.reader]
                                               yields it; [None]: no file *)
  alerts_log : option string;               (* alerts.log; [None]: no file *)
}.

(** Flask turns an exception that leaves a handler into a 500. *)
Definition serve (handler : io world response) (w : world) : world * response :=
  match handler w with
  | (w', Ok r) => (w', r)
  | (w', Raise _) => (w', InternalServerError)
  end.

(** *** Latest frame *)

(** [sorted(...)] on strings. *)
Definition sorted (l : list string) : list string := merge_sort str_le l.

(** [get_latest_image_path] *)
Definition get_latest_image_path (listing : list string) : option string :=
  let images := sorted (glob_jpg listing) in
  last images.

Definition not_found (msg : string) : response :=
  JsonResponse 404 (JObj [("error", JStr msg)]).

(** [camera_latest]; [listing] is the directory as enumerated at the call. *)
Definition camera_latest (listing : list string) : io world response :=
  w ← get;
  match get_latest_image_path listing with
  | Some path =>
      match camera_dir w !! path with
      | Some f => mret (SendFile "image/jpeg" (content f))
      | None => mret (not_found "No camera images found")
      end
  | None => mret (not_found "No camera images found")
  end.

(** *** Dates *)

(** A naive [datetime] is its count of microseconds since
    0001-01-01T00:00:00; [datetime.max] is 9999-12-31T23:59:59.999999. *)
Definition MAX_US : Z := 3652059 * 86400 * 1000000.

(** [datetime.timedelta(hours=h)], in microseconds; more than 999999999
    days is an [OverflowError]. *)
Definition timedelta_hours (h : Z) : result Z :=
  let days := ((h * 3600) `div` 86400)%Z in
  if (999999999 <? Z.abs days)%Z then Raise OverflowError
  else Ok (h * 3600 * 1000000)%Z.

(** [dt - delta] *)
Definition datetime_sub (dt delta : Z) : result Z :=
  let r := (dt - delta)%Z in
  if (0 <=? r)%Z && (r <? MAX_US)%Z then Ok r else Raise OverflowError.

(** [datetime.datetime.now() - datetime.timedelta(hours=hours)] *)
Definition history_cutoff (hours now : Z) : result Z :=
  delta ← timedelta_hours hours; datetime_sub now delta.

(** What [datetime.fromisoformat] makes of a string. *)
Inductive iso_parse : Type :=
  | IsoError                             (* [ValueError] *)
  | IsoNaive (t : Z)
  | IsoAware (t : Z) (utcoffset : Z).

(** *** Reading history *)

(** A row of [csv.DictReader]; a value [None] is Python's [None], the fill
    of a short row.  The surplus of a long row, kept under the key [None],
    is never read and is left out. *)
Abbreviation row_dict := (gmap string (option string)).

Definition dict_of (fieldnames row : list string) : row_dict :=
  let d := foldl (λ d kv, <[kv.1 := Some kv.2]> d) ∅ (zip fieldnames row) in
  foldl (λ d key, <[key := None]> d) d (drop (length row) fieldnames).

(** The first row names the fields; blank rows are passed over. *)
Definition DictReader (rows : list (list string)) : list row_dict :=
  match rows with
  | [] => []
  | fieldnames :: rest =>
      dict_of fieldnames <$> filter (λ r, r ≠ []) rest
  end.

Definition LF : string := String "010"%char "".

Definition header_line : string := "timestamp,ph,temp_c".

(** ["\n".join(lines) + "\n"] *)
Definition join_lines (lines : list string) : string :=
  String.concat LF lines +:+ LF.

(** [r.get(key, '')] inside an f-string *)
Definition get_str (r : row_dict) (key : string) : string :=
  match r !! key with
  | None => ""
  | Some None => "None"
  | Some (Some s) => s
  end.

Definition render_row (r : row_dict) : string :=
  get_str r "timestamp" +:+ "," +:+ get_str r "ph" +:+ "," +:+ get_str r "temp_c".

Definition csv_response (body : string) : response :=
  TextResponse 200 "text/csv" body.

Section History.

Variable fromisoformat : string → iso_parse.

(** The inner [try] of the loop: does the row go into [rows]?  [KeyError]
    and [ValueError] are caught; [None] for a timestamp and an aware
    timestamp compared with the naive cutoff raise [TypeError]. *)
Definition row_in_window (cutoff : Z) (row : row_dict) : result bool :=
  match row !! "timestamp" with
  | None => Ok false
  | Some None => Raise TypeError
  | Some (Some s) =>
      match fromisoformat s with
      | IsoError => Ok false
      | IsoNaive ts => Ok (bool_decide (cutoff ≤ ts)%Z)
      | IsoAware _ _ => Raise TypeError
      end
  end.

Fixpoint select_rows (cutoff : Z) (reader : list row_dict) : result (list row_dict) :=
  match reader with
  | [] => Ok []
  | row :: rest =>
      keep ← row_in_window cutoff row;
      rows ← select_rows cutoff rest;
      Ok (if keep : bool then row :: rows else rows)
  end.

(** [sensors_history]; [hours_arg] is the [hours] query parameter as an
    integer, [None] when it is missing or not one; [now] is
    [datetime.now()]. *)
Definition sensors_history (hours_arg : option Z) (now : Z) : io world response :=
  let hours := default 24%Z hours_arg in
  cutoff ← lift_result (history_cutoff hours now);
  w ← get;
  match sensor_csv w with
  | None => mret (csv_response (header_line +:+ LF))
  | Some csv_rows =>
      rows ← lift_result (select_rows cutoff (DictReader csv_rows));
      match rows with
      | [] => mret (csv_response (header_line +:+ LF))
      | _ :: _ => mret (csv_response (join_lines (header_line :: (render_row <$> rows))))
      end
  end.

End History.

(** *** Receiving an alert *)

Section Alert.

(** How an f-string renders a decoded value that is not a string. *)
Variable py_repr : json → string.

Definition py_str (j : json) : string :=
  match j with
  | JStr s => s
  | other => py_repr other
  end.

(** Mode ["a"]: the text goes to the end, the file is made if missing. *)
Definition append_log (text : string) (w : world) : world :=
  mkWorld (camera_dir w) (sensor_csv w)
          (Some (default "" (alerts_log w) +:+ text)).

(** [receive_alert]; [body] is [request.get_json(silent=True)], [ts] is
    [datetime.now().isoformat()]. *)
Definition receive_alert (body : option json) (ts : string) : io world response :=
  let data :=
    match body with
    | Some j => if truthy j then j else JObj []
    | None => JObj []
    end in
  message ←
    match data with
    | JObj fields => mret (default (JStr "Unknown alert") (fields_get fields "message"))
    | _ => raise AttributeError
    end;
  modify (append_log (ts +:+ " | " +:+ py_str message +:+ LF)) ;;
  mret (JsonResponse 200 (JObj [("status", JStr "received"); ("message", message)])).

End Alert.

End LabBridge.

(** * Properties *)

(** ** Running effectful code *)

Lemma run_bind {S A B} (m : io S A) (k : A → io S B) (s : S) :
  (m ≫= k) s =
  match m s with
  | (s', Ok a) => k a s'
  | (s', Raise e) => (s', Raise e)
  end.
Proof. reflexivity. Qed.

Lemma run_ret {S A} (a : A) (s : S) : (mret a : io S A) s = (s, Ok a).
Proof. reflexivity. Qed.

Lemma run_get {S} (s : S) : get s = (s, Ok s).
Proof. reflexivity. Qed.

Lemma run_modify {S} (f : S → S) (s : S) : modify f s = (f s, Ok tt).
Proof. reflexivity. Qed.

Lemma run_raise {S A} (e : exn) (s : S) : (raise e : io S A) s = (s, Raise e).
Proof. reflexivity. Qed.

Lemma run_lift_result {S A} (r : result A) (s : S) : lift_result r s = (s, r).
Proof. reflexivity. Qed.

Lemma run_try_except {S A} (m : io S A) (h : exn → io S A) (s : S) :
  try_except m h s =
  match m s with
  | (s', Ok a) => (s', Ok a)
  | (s', Raise e) => h e s'
  end.
Proof. reflexivity. Qed.

Ltac io_run :=
  repeat first
    [ rewrite run_bind | rewrite run_ret | rewrite run_get | rewrite run_modify
    | rewrite run_raise | rewrite run_lift_result | rewrite run_try_except ].

(** ** Strings *)

Lemma append_assoc (a b c : string) : (a +:+ b) +:+ c = a +:+ b +:+ c.
Proof.
  induction a as [|x a IH]; [reflexivity|]. exact (f_equal (String x) IH).
Qed.

Lemma append_nil_r (a : string) : a +:+ "" = a.
Proof.
  induction a as [|x a IH]; [reflexivity|]. exact (f_equal (String x) IH).
Qed.

Lemma contains_middle (pre sub post : string) : contains sub (pre +:+ sub +:+ post).
Proof. by exists pre, post. Qed.

Lemma contains_append_l (sub pre s : string) : contains sub s → contains sub (pre +:+ s).
Proof.
  intros (a & b & ->). exists (pre +:+ a), b. by rewrite append_assoc.
Qed.

(** ** The order on file names *)

Lemma ascii_compare_lt_trans (a b c : ascii) :
  Ascii.compare a b = Lt → Ascii.compare b c = Lt → Ascii.compare a c = Lt.
Proof.
  unfold Ascii.compare. rewrite !N.compare_lt_iff. lia.
Qed.

Lemma str_compare_lt_trans (a b c : string) :
  String.compare a b = Lt → String.compare b c = Lt → String.compare a c = Lt.
Proof.
  revert b c. induction a as [|x a IH]; intros [|y b] [|z c]; simpl; try done.
  destruct (Ascii.compare x y) eqn:Hxy; try done.
  - apply Ascii.compare_eq_iff in Hxy as ->.
    destruct (Ascii.compare y z); try done. apply IH.
  - intros _. destruct (Ascii.compare y z) eqn:Hyz; try done.
    + apply Ascii.compare_eq_iff in Hyz as <-. by rewrite Hxy.
    + by rewrite (ascii_compare_lt_trans x y z).
Qed.

#[global] Instance str_le_trans : Transitive str_le.
Proof.
  intros a b c. unfold str_le, String.leb.
  destruct (String.compare a b) eqn:Hab; try done;
    destruct (String.compare b c) eqn:Hbc; try done; intros _ _.
  - apply String.compare_eq_iff in Hab as ->. by rewrite Hbc.
  - apply String.compare_eq_iff in Hab as ->. by rewrite Hbc.
  - apply String.compare_eq_iff in Hbc as <-. by rewrite Hab.
  - by rewrite (str_compare_lt_trans a b c).
Qed.

#[global] Instance str_le_total : Total str_le.
Proof. intros a b. apply String.leb_total. Qed.

#[global] Instance str_le_antisym : AntiSymm (=) str_le.
Proof. intros a b. apply String.leb_antisym. Qed.

#[global] Instance str_le_refl : Reflexive str_le.
Proof. intros a. by destruct (str_le_total a a). Qed.

(** ** Directory listings *)

Lemma lists_dir_NoDup (listing : list string) (d : dir) :
  lists_dir listing d → NoDup listing.
Proof. intros ->. apply NoDup_fst_map_to_list. Qed.

Lemma lists_dir_elem_of (listing : list string) (d : dir) (name : string) :
  lists_dir listing d → name ∈ listing ↔ is_Some (d !! name).
Proof.
  intros ->. rewrite list_elem_of_fmap. split.
  - intros [[n f] [-> Hin]]. apply elem_of_map_to_list in Hin. by exists f.
  - intros [f Hf]. exists (name, f). split; [done|]. by apply elem_of_map_to_list.
Qed.

Lemma lists_dir_canonical (d : dir) : lists_dir (map_to_list d).*1 d.
Proof. by unfold lists_dir. Qed.

Example glob_match_jpg_examples :
  glob_match_jpg "20261103_120000.jpg" = true
  ∧ glob_match_jpg "notes.txt" = false
  ∧ glob_match_jpg "frame.JPG" = false
  ∧ glob_match_jpg "jpg" = false
  ∧ glob_match_jpg ".hidden.jpg" = false
  ∧ glob_match_jpg ".jpg" = false.
Proof. vm_compute. repeat split. Qed.

Lemma glob_jpg_NoDup (listing : list string) :
  NoDup listing → NoDup (glob_jpg listing).
Proof. apply NoDup_filter. Qed.

Lemma elem_of_glob_jpg (listing : list string) (name : string) :
  name ∈ glob_jpg listing ↔ glob_match_jpg name = true ∧ name ∈ listing.
Proof. unfold glob_jpg. by rewrite list_elem_of_filter. Qed.

(** ** The retention sweep *)

Module SweepProofs.
Import CameraMonitor.

(** What the sweep leaves of a file: nothing if it was visited and is older
    than the cutoff, the file itself otherwise. *)
Definition kept (cutoff : Qc) (paths : list string) (name : string)
    (f : option file) : option file :=
  match f with
  | Some f =>
      if bool_decide (name ∈ paths ∧ (mtime f < cutoff)%Qc) then None else Some f
  | None => None
  end.

Lemma cleanup_loop_spec (cutoff : Qc) (paths : list string) (d : dir) :
  NoDup paths →
  (∀ p, p ∈ paths → is_Some (d !! p)) →
  ∃ d', cleanup_loop cutoff paths d = (d', Ok tt)
        ∧ ∀ name, d' !! name = kept cutoff paths name (d !! name).
Proof.
  revert d. induction paths as [|p rest IH]; intros d Hnd Hin.
  - exists d. split; [done|]. intros name. unfold kept.
    destruct (d !! name); [|done].
    rewrite bool_decide_eq_false_2; [done|]. intros [Hnil _]. by apply elem_of_nil in Hnil.
  - apply NoDup_cons in Hnd as [Hp Hnd].
    destruct (Hin p) as [f Hf]; [left|].
    set (d1 := if bool_decide (mtime f < cutoff)%Qc then delete p d else d).
    assert (Hd1 : ∀ q, q ≠ p → d1 !! q = d !! q).
    { intros q Hq. unfold d1. case_bool_decide; [|done]. by rewrite lookup_delete_ne. }
    destruct (IH d1 Hnd) as (d' & Hrun & Hd').
    { intros q Hq. rewrite Hd1; [apply Hin; by right|]. intros ->. done. }
    exists d'. split.
    + cbn [cleanup_loop]. unfold cleanup_step. io_run. rewrite Hf.
      unfold d1 in Hrun. case_bool_decide; io_run; exact Hrun.
    + intros name. rewrite Hd'. destruct (decide (name = p)) as [->|Hne].
      * unfold d1. rewrite Hf. unfold kept.
        case_bool_decide as Hold.
        -- rewrite lookup_delete_eq. rewrite bool_decide_eq_true_2; [done|].
           split; [left|done].
        -- rewrite Hf. rewrite !bool_decide_eq_false_2; [done| |]; tauto.
      * rewrite Hd1 by done. unfold kept. destruct (d !! name) as [g|]; [|done].
        rewrite (bool_decide_ext (name ∈ rest ∧ (mtime g < cutoff)%Qc)
          (name ∈ p :: rest ∧ (mtime g < cutoff)%Qc)); [done|].
        rewrite elem_of_cons. split.
        -- intros [Hr Hold]. split; [by right|done].
        -- intros [[Heq|Hr] Hold]; [done|]. by split.
Qed.

Lemma kept_Some (cutoff : Qc) (paths : list string) (name : string)
    (o : option file) (f : file) :
  kept cutoff paths name o = Some f ↔
  o = Some f ∧ ¬ (name ∈ paths ∧ (mtime f < cutoff)%Qc).
Proof.
  unfold kept. destruct o as [g|]; [|split; [done|by intros [? _]]].
  case_bool_decide as Hd; split.
  - done.
  - intros [[= ->] Hn]. done.
  - intros [= ->]. done.
  - by intros [-> _].
Qed.


(** A camera directory with one frame from long ago, one from a minute
    ago and a file that is no frame; the clock reads 1000000 and frames
    are kept for 24 hours. *)
Definition example_dir : dir :=
  <["20260101_000000.jpg" := mkFile (Qc_of_Z 100) "old frame"]>
  (<["20261103_120000.jpg" := mkFile (Qc_of_Z 999940) "new frame"]>
  (<["notes.txt" := mkFile (Qc_of_Z 50) "not a frame"]> ∅)).


Example sweep_example_names :
  (λ r, (map_to_list (r.1)).*1)
    (cleanup_old_images (Qc_of_Z 1000000) (Qc_of_Z 24)
       (map_to_list example_dir).*1 example_dir)
  ≡ₚ ["20261103_120000.jpg"; "notes.txt"].
Proof. vm_compute. apply perm_swap. Qed.

End SweepProofs.

(** ** The camera loop *)

Module LoopProofs.
Import CameraMonitor.

(** The events one iteration adds to the trace. *)
Definition events_of (cfg : camera_cfg) (env : iter_env) (w : world) : list event :=
  drop (length (trace w)) (trace (iteration cfg env w).1).

(** The capture attempt, later the sweep, and the sleep at the very end. *)
Definition sweep_after_capture (evs : list event) : Prop :=
  ∃ l1 l2 l3 s, evs = l1 ++ [EvCapture] ++ l2 ++ [EvSweep] ++ l3 ++ [EvSleep s].

Lemma run_emit (ev : event) (w : world) :
  emit ev w = (mkWorld (cam_dir w) (trace w ++ [ev]), Ok tt).
Proof. reflexivity. Qed.

Lemma run_on_dir {A} (m : io dir A) (w : world) :
  on_dir m w = (mkWorld (m (cam_dir w)).1 (trace w), (m (cam_dir w)).2).
Proof. unfold on_dir. by destruct (m (cam_dir w)). Qed.

Lemma drop_length_app {A} (l k : list A) : drop (length l) (l ++ k) = k.
Proof. by rewrite drop_app_length. Qed.


(** So does one out of [save_frame]: the sweep is not reached. *)
Lemma iteration_save_raises (cfg : camera_cfg) (env : iter_env) (w : world)
    (img : option string) (b : string) (e : exn) :
  capture_frame (hw env) (device cfg) = Ok img →
  truthy_bytes img = Some b →
  save_fault env = Some e →
  iteration cfg env w =
  (mkWorld (cam_dir w)
     (trace w ++ [EvCapture; EvLogError e; EvSleep (interval_seconds cfg)]),
   Ok tt).
Proof.
  intros Hcap Himg Hsave. unfold iteration, loop_body. io_run. rewrite run_emit.
  io_run. rewrite Hcap, Himg. unfold save_frame. rewrite Hsave. io_run.
  rewrite !run_emit. cbn. by rewrite <- !app_assoc.
Qed.

Lemma run_save_frame (env : iter_env) (b : string) (w : world) :
  save_fault env = None →
  save_frame env b w =
  (mkWorld (<[stamp env +:+ ".jpg" := mkFile (clock env) b]> (cam_dir w))
     (trace w ++ [EvSaved (stamp env +:+ ".jpg")]),
   Ok (stamp env +:+ ".jpg")).
Proof.
  intros Hsave. unfold save_frame. rewrite Hsave. io_run. rewrite run_on_dir.
  io_run. cbn [fst snd]. rewrite run_emit. by io_run.
Qed.

Lemma run_upload_frame (path : string) (w : world) :
  upload_frame path w = (mkWorld (cam_dir w) (trace w ++ [EvUpload path]), Ok tt).
Proof. reflexivity. Qed.

Ltac cam_run :=
  repeat (io_run; rewrite ?run_emit, ?run_upload_frame, ?run_on_dir;
          cbn [fst snd cam_dir trace]).

Ltac finish_sweep :=
  match goal with
  | |- context [cleanup_old_images ?a ?b ?c ?d] =>
      destruct (cleanup_old_images a b c d) as [d' [[]|e]]
  end; cam_run; by rewrite <- ?app_assoc.

(** The directory and the events of the save step. *)
Definition after_save (cfg : camera_cfg) (env : iter_env) (img : option string)
    (d : dir) : dir * list event :=
  match truthy_bytes img with
  | Some b =>
      let path := stamp env +:+ ".jpg" in
      (<[path := mkFile (clock env) b]> d,
       EvSaved path :: (if upload_to_server cfg then [EvUpload path] else []))
  | None => (d, [])
  end.

(** When neither the capture nor the save raises, the iteration is: the
    capture, the save if there is a frame, the sweep, the handler if the
    sweep raised, the sleep. *)
Lemma iteration_no_raise (cfg : camera_cfg) (env : iter_env) (w : world)
    (img : option string) :
  capture_frame (hw env) (device cfg) = Ok img →
  truthy_bytes img = None ∨ save_fault env = None →
  let d1 := (after_save cfg env img (cam_dir w)).1 in
  let saved := (after_save cfg env img (cam_dir w)).2 in
  let sw := cleanup_old_images (clock env) (keep_hours cfg) (listdir env d1) d1 in
  iteration cfg env w =
  (mkWorld sw.1
     (trace w ++ [EvCapture] ++ saved ++ [EvSweep]
        ++ match sw.2 with Ok _ => [] | Raise e => [EvLogError e] end
        ++ [EvSleep (interval_seconds cfg)]),
   Ok tt).
Proof.
  intros Hcap Hsave. unfold after_save. cbn zeta.
  unfold iteration, loop_body. io_run. rewrite run_emit. io_run. rewrite Hcap.
  destruct (truthy_bytes img) as [b|] eqn:Himg.
  - destruct Hsave as [|Hsave]; [done|].
    io_run. rewrite (run_save_frame env b _ Hsave). cbn [cam_dir trace].
    destruct (upload_to_server cfg); cam_run; finish_sweep.
  - cam_run. finish_sweep.
Qed.

(** C7, as amended.  In an iteration in which neither [capture_frame] nor
    [save_frame] raises, the sweep is called after the capture attempt and
    before the sleep, whether or not a frame was captured: a capture that
    reports failure by returning no image still leads to the sweep. *)
Theorem iteration_sweeps_unless_raised (cfg : camera_cfg) (env : iter_env)
    (w : world) (img : option string) :
  capture_frame (hw env) (device cfg) = Ok img →
  truthy_bytes img = None ∨ save_fault env = None →
  sweep_after_capture (events_of cfg env w).
Proof.
  intros Hcap Hsave. unfold events_of.
  rewrite (iteration_no_raise cfg env w img Hcap Hsave). cbn [fst trace].
  rewrite drop_length_app.
  eexists [], _, _, _. cbn [app]. reflexivity.
Qed.

(** A camera that delivers a frame, and one whose library is missing. *)
Definition working_camera : camera_hw :=
  {| HAS_CV2 := true;
     dev_index := λ _, 0%Z;
     VideoCapture := λ _, mkVideoCapture true (Ok (true, Some "raw frame"));
     imencode := λ _, Ok (true, "jpeg bytes") |}.

Definition missing_camera : camera_hw :=
  {| HAS_CV2 := false;
     dev_index := λ _, 0%Z;
     VideoCapture := λ _, mkVideoCapture false (Ok (false, None));
     imencode := λ _, Ok (false, "") |}.

(** The camera works but the camera directory cannot be written. *)
Definition env_save_fails : iter_env :=
  {| hw := working_camera;
     stamp := "20261103_120100";
     save_fault := Some OSError;
     clock := Qc_of_Z 1000000;
     listdir := λ d, (map_to_list d).*1 |}.

Definition env_no_camera : iter_env :=
  {| hw := missing_camera;
     stamp := "20261103_120100";
     save_fault := None;
     clock := Qc_of_Z 1000000;
     listdir := λ d, (map_to_list d).*1 |}.

Definition example_world : world := mkWorld SweepProofs.example_dir [].

Lemma iteration_sweeps_unless_raised_witness :
  capture_frame (hw env_no_camera) (device default_camera_cfg) = Ok None
  ∧ (truthy_bytes None = None ∨ save_fault env_no_camera = None)
  ∧ sweep_after_capture (events_of default_camera_cfg env_no_camera example_world).
Proof.
  split; [reflexivity|]. split; [left; reflexivity|].
  apply (iteration_sweeps_unless_raised default_camera_cfg env_no_camera
           example_world None); [reflexivity | left; reflexivity].
Defined.

(** C7, as stated, fails: with a working camera and a directory that
    cannot be written, [save_frame] raises, the handler logs the error and
    the iteration sleeps without having called the sweep. *)
Lemma sweep_skipped_when_save_raises :
  ¬ sweep_after_capture (events_of default_camera_cfg env_save_fails example_world).
Proof.
  unfold events_of.
  rewrite (iteration_save_raises default_camera_cfg env_save_fails example_world
             (Some "jpeg bytes") "jpeg bytes" OSError); [|reflexivity..].
  cbn [fst trace example_world drop length app].
  intros (l1 & l2 & l3 & s & Heq).
  assert (Hin : EvSweep ∈ [EvCapture; EvLogError OSError;
                           EvSleep (interval_seconds default_camera_cfg)]).
  { rewrite Heq. rewrite !elem_of_app, !list_elem_of_singleton. tauto. }
  rewrite !elem_of_cons in Hin. rewrite elem_of_nil in Hin.
  destruct Hin as [Hin|[Hin|[Hin|[]]]]; discriminate Hin.
Qed.

(** The stale frame that the skipped sweep would have removed is still
    there after that iteration. *)
Example stale_frame_survives :
  cam_dir (iteration default_camera_cfg env_save_fails example_world).1
    !! "20260101_000000.jpg"
  = Some (mkFile (Qc_of_Z 100) "old frame").
Proof.
  rewrite (iteration_save_raises default_camera_cfg env_save_fails example_world
             (Some "jpeg bytes") "jpeg bytes" OSError); [|reflexivity..].
  reflexivity.
Qed.

End LoopProofs.

(** ** The latest frame *)

Module LatestProofs.
Import LabBridge.

(** A name that [*.jpg] matches, bound to a regular file of the directory. *)
Definition is_frame (d : dir) (name : string) : Prop :=
  glob_match_jpg name = true ∧ is_Some (d !! name).

Lemma sorted_Permutation (l : list string) : sorted l ≡ₚ l.
Proof. apply merge_sort_Permutation. Qed.

Lemma sorted_StronglySorted (l : list string) : StronglySorted str_le (sorted l).
Proof. apply StronglySorted_merge_sort; apply _. Qed.

(** The last element of a sorted list is its greatest. *)
Lemma last_sorted_greatest (l : list string) (top : string) :
  last (sorted l) = Some top →
  top ∈ l ∧ ∀ name, name ∈ l → str_le name top.
Proof.
  intros [front Hfront]%last_Some.
  pose proof (sorted_StronglySorted l) as Hs. rewrite Hfront in Hs.
  split.
  - rewrite <- (sorted_Permutation l), Hfront. apply elem_of_app. right. by left.
  - intros name Hin. rewrite <- (sorted_Permutation l), Hfront in Hin.
    apply elem_of_app in Hin as [Hin|Hin%list_elem_of_singleton].
    + eapply StronglySorted_app_1_elem_of; [done..|by left].
    + subst. reflexivity.
Qed.

Lemma last_sorted_None (l : list string) : last (sorted l) = None ↔ l = [].
Proof.
  rewrite last_None. split.
  - intros Hnil. apply Permutation_nil_r. by rewrite <- Hnil, sorted_Permutation.
  - by intros ->.
Qed.

(** The enumeration order does not matter to the result. *)
Lemma get_latest_image_path_perm (l1 l2 : list string) :
  l1 ≡ₚ l2 → get_latest_image_path l1 = get_latest_image_path l2.
Proof.
  intros Hp. unfold get_latest_image_path. f_equal.
  apply (Sorted_unique str_le).
  - apply Sorted_merge_sort; apply _.
  - apply Sorted_merge_sort; apply _.
  - unfold sorted. rewrite !merge_sort_Permutation. unfold glob_jpg. by rewrite Hp.
Qed.

Lemma get_latest_image_path_Some (listing : list string) (d : dir) (top : string) :
  lists_dir listing d →
  get_latest_image_path listing = Some top →
  is_frame d top ∧ ∀ name, is_frame d name → str_le name top.
Proof.
  intros Hl [Hin Hmax]%last_sorted_greatest.
  apply elem_of_glob_jpg in Hin as [Hm Hin]. split.
  - split; [done|]. by eapply lists_dir_elem_of.
  - intros name [Hm' Hin']. apply Hmax. apply elem_of_glob_jpg. split; [done|].
    by eapply lists_dir_elem_of.
Qed.

Lemma get_latest_image_path_None (listing : list string) (d : dir) :
  lists_dir listing d →
  get_latest_image_path listing = None ↔ ∀ name, ¬ is_frame d name.
Proof.
  intros Hl. unfold get_latest_image_path. rewrite last_sorted_None. split.
  - intros Hnil name [Hm Hin].
    assert (name ∈ glob_jpg listing) as Hg.
    { apply elem_of_glob_jpg. split; [done|]. by eapply lists_dir_elem_of. }
    rewrite Hnil in Hg. by apply elem_of_nil in Hg.
  - intros Hno. destruct (glob_jpg listing) as [|name rest] eqn:Hg; [done|].
    exfalso. apply (Hno name).
    assert (name ∈ glob_jpg listing) as [Hm Hin]%elem_of_glob_jpg.
    { rewrite Hg. by left. }
    split; [done|]. by eapply lists_dir_elem_of.
Qed.

Lemma run_camera_latest (listing : list string) (w : world) :
  camera_latest listing w =
  (w, Ok match get_latest_image_path listing with
         | Some path =>
             match camera_dir w !! path with
             | Some f => SendFile "image/jpeg" (content f)
             | None => not_found "No camera images found"
             end
         | None => not_found "No camera images found"
         end).
Proof.
  unfold camera_latest. io_run.
  destruct (get_latest_image_path listing) as [path|]; [|done].
  by destruct (camera_dir w !! path).
Qed.


Definition example_world : world :=
  mkWorld SweepProofs.example_dir None None.


Example camera_latest_example :
  (serve (camera_latest (map_to_list (camera_dir example_world)).*1)
     example_world).2
  = SendFile "image/jpeg" "new frame".
Proof. vm_compute. reflexivity. Qed.

Example camera_latest_empty :
  (serve (camera_latest []) (mkWorld ∅ None None)).2
  = JsonResponse 404 (JObj [("error", JStr "No camera images found")]).
Proof. vm_compute. reflexivity. Qed.

(** C9. With the camera directory fixed, two latest-frame queries in a row
    give the same response, byte for byte, even if the system enumerates
    the directory in a different order the second time; the first query
    leaves the files as they were. *)
Theorem camera_latest_deterministic (l1 l2 : list string) (w : world) :
  lists_dir l1 (camera_dir w) →
  lists_dir l2 (camera_dir w) →
  (serve (camera_latest l1) w).1 = w
  ∧ (serve (camera_latest l2) (serve (camera_latest l1) w).1).1 = w
  ∧ (serve (camera_latest l2) (serve (camera_latest l1) w).1).2
    = (serve (camera_latest l1) w).2.
Proof.
  intros H1 H2. unfold serve. rewrite !run_camera_latest. cbn [fst snd].
  rewrite ?run_camera_latest. cbn [fst snd]. split; [done|]. split; [done|].
  rewrite (get_latest_image_path_perm l2 l1); [done|].
  unfold lists_dir in *. by rewrite H1, H2.
Qed.

Lemma camera_latest_deterministic_witness :
  lists_dir ["notes.txt"; "20260101_000000.jpg"; "20261103_120000.jpg"]
    (camera_dir example_world)
  ∧ lists_dir ["20261103_120000.jpg"; "notes.txt"; "20260101_000000.jpg"]
      (camera_dir example_world)
  ∧ (serve (camera_latest ["notes.txt"; "20260101_000000.jpg"; "20261103_120000.jpg"])
       example_world).1 = example_world
  ∧ (serve (camera_latest ["20261103_120000.jpg"; "notes.txt"; "20260101_000000.jpg"])
       (serve (camera_latest ["notes.txt"; "20260101_000000.jpg"; "20261103_120000.jpg"])
          example_world).1).1 = example_world
  ∧ (serve (camera_latest ["20261103_120000.jpg"; "notes.txt"; "20260101_000000.jpg"])
       (serve (camera_latest ["notes.txt"; "20260101_000000.jpg"; "20261103_120000.jpg"])
          example_world).1).2
    = (serve (camera_latest ["notes.txt"; "20260101_000000.jpg"; "20261103_120000.jpg"])
         example_world).2.
Proof.
  assert (H1 : lists_dir ["notes.txt"; "20260101_000000.jpg"; "20261103_120000.jpg"]
                 (camera_dir example_world)).
  { unfold lists_dir. apply (bool_decide_unpack _). vm_compute. exact I. }
  assert (H2 : lists_dir ["20261103_120000.jpg"; "notes.txt"; "20260101_000000.jpg"]
                 (camera_dir example_world)).
  { unfold lists_dir. apply (bool_decide_unpack _). vm_compute. exact I. }
  split; [exact H1|]. split; [exact H2|].
  exact (camera_latest_deterministic _ _ example_world H1 H2).
Defined.

End LatestProofs.

(** ** The readings log *)

Module CsvProofs.
Import SensorReader.

(** One call of [write_csv]: its three arguments. *)
Definition reading : Type := string * option Qc * option Qc.

Definition row_of (r : reading) : csv_row := data_row r.1.1 r.1.2 r.2.

(** Calls of [write_csv] one after another.  Only the file carries over
    from one call to the next, so it makes no difference whether the
    process was restarted in between. *)
Definition write_all (rs : list reading) (w : world) : world :=
  foldl (λ w r, write_csv r.1.1 r.1.2 r.2 w) w rs.

(** The rows of the file, none if there is no file. *)
Definition rows_of (w : world) : list csv_row := default [] (csv_file w).



Lemma write_csv_rows (ts : string) (ph temp : option Qc) (w : world) :
  rows_of (write_csv ts ph temp w)
  = rows_of w ++ rows_written (negb (csv_exists w)) ts ph temp.
Proof. reflexivity. Qed.

Lemma write_csv_exists (ts : string) (ph temp : option Qc) (w : world) :
  csv_exists (write_csv ts ph temp w) = true.
Proof. reflexivity. Qed.

(** Once the file is there, further calls only add data rows. *)
Lemma write_all_existing (rs : list reading) (w : world) :
  csv_exists w = true →
  csv_exists (write_all rs w) = true
  ∧ rows_of (write_all rs w) = rows_of w ++ (row_of <$> rs).
Proof.
  revert w. induction rs as [|r rs IH]; intros w Hex.
  - cbn. by rewrite app_nil_r.
  - cbn [write_all foldl]. destruct (IH (write_csv r.1.1 r.1.2 r.2 w)) as [H1 H2].
    { apply write_csv_exists. }
    split; [exact H1|]. unfold write_all in H2. rewrite H2, write_csv_rows, Hex.
    cbn. by rewrite <- app_assoc.
Qed.

Lemma rows_of_Some (w : world) (rows : list csv_row) :
  csv_exists w = true → rows_of w = rows → csv_file w = Some rows.
Proof. unfold csv_exists, rows_of. destruct (csv_file w); [cbn; congruence|done]. Qed.




Definition no_file : world := mkWorld None [].

Definition example_readings : list reading :=
  [ ("2026-11-03T12:00:00.000123", Some (Qc_of_decimal 7 2), Some (Qc_of_decimal 24 50));
    ("2026-11-03T12:00:10.004567", None, Some (Qc_of_decimal 24 60));
    ("2026-11-03T12:00:20.008901", Some (Qc_of_decimal 6 98), None) ].


(** A file that was there before the first call, even an empty one, never
    gets a header. *)
Example no_header_for_existing_file :
  csv_file (write_all example_readings (mkWorld (Some []) []))
  = Some (row_of <$> example_readings).
Proof. reflexivity. Qed.

End CsvProofs.

(** ** Threshold alerts *)

Module AlertProofs.
Import SensorReader.

Section WithRendering.

Variable str_float : Qc → string.
Variable HAS_REQUESTS : bool.

Abbreviation ph_message := (ph_message str_float).
Abbreviation temp_message := (temp_message str_float).
Abbreviation check_alerts := (check_alerts str_float HAS_REQUESTS).

(** The two kinds of alert are told apart by how the message begins. *)
Definition is_ph_alert (msg : string) : bool :=
  starts_with "⚠️ pH OUT OF RANGE: " msg.

Definition is_temp_alert (msg : string) : bool :=
  starts_with "⚠️ Temperature OUT OF RANGE: " msg.

Definition count_alerts (kind : string → bool) (alerts : list string) : nat :=
  length (filter (λ msg, kind msg = true) alerts).

(** The same configuration with another pH range. *)
Definition with_ph_range (cfg : config) (lo hi : Qc) : config :=
  let s := sensors cfg in
  mkConfig
    (mkSensorCfg (ph_enabled s) (temp_enabled s) (read_interval_seconds s)
       (lo, hi) (temp_range s) (simulate s))
    (neverot_server cfg).

Lemma out_of_range_spec (v lo hi : Qc) :
  out_of_range v lo hi = true ↔ (v < lo)%Qc ∨ (hi < v)%Qc.
Proof.
  unfold out_of_range. rewrite orb_true_iff, !bool_decide_eq_true. done.
Qed.

Lemma ph_message_kind (v lo hi : Qc) :
  is_ph_alert (ph_message v lo hi) = true
  ∧ is_temp_alert (ph_message v lo hi) = false.
Proof. split; vm_compute; reflexivity. Qed.

Lemma temp_message_kind (v lo hi : Qc) :
  is_ph_alert (temp_message v lo hi) = false
  ∧ is_temp_alert (temp_message v lo hi) = true.
Proof. split; vm_compute; reflexivity. Qed.

Lemma ph_message_contains (v lo hi : Qc) :
  contains (str_float v) (ph_message v lo hi)
  ∧ contains (str_float lo) (ph_message v lo hi)
  ∧ contains (str_float hi) (ph_message v lo hi).
Proof.
  unfold SensorReader.ph_message. repeat split.
  - apply contains_middle.
  - do 2 apply contains_append_l. apply contains_middle.
  - do 4 apply contains_append_l. apply contains_middle.
Qed.

Lemma temp_message_contains (v lo hi : Qc) :
  contains (str_float v) (temp_message v lo hi)
  ∧ contains (str_float lo) (temp_message v lo hi)
  ∧ contains (str_float hi) (temp_message v lo hi).
Proof.
  unfold SensorReader.temp_message. repeat split.
  - apply contains_middle.
  - do 2 apply contains_append_l. apply contains_middle.
  - do 4 apply contains_append_l. apply contains_middle.
Qed.

(** The alerts for the pH and those for the temperature, in this order. *)
Definition ph_part (ph : option Qc) (cfg : sensor_cfg) : list string :=
  match ph with
  | Some v =>
      if out_of_range v (ph_range cfg).1 (ph_range cfg).2
      then [ph_message v (ph_range cfg).1 (ph_range cfg).2] else []
  | None => []
  end.

Definition temp_part (temp : option Qc) (cfg : sensor_cfg) : list string :=
  match temp with
  | Some v =>
      if out_of_range v (temp_range cfg).1 (temp_range cfg).2
      then [temp_message v (temp_range cfg).1 (temp_range cfg).2] else []
  | None => []
  end.

Lemma check_alerts_parts (ph temp : option Qc) (cfg : config) (w : world) :
  (check_alerts ph temp cfg w).2 = ph_part ph (sensors cfg) ++ temp_part temp (sensors cfg).
Proof.
  unfold SensorReader.check_alerts, alerts_of, ph_part, temp_part. cbn [snd].
  destruct (ph_range (sensors cfg)) as [lo hi], (temp_range (sensors cfg)) as [tlo thi].
  cbn [fst snd].
  destruct ph as [v|], temp as [t|]; try done;
    try destruct (out_of_range v lo hi); try destruct (out_of_range t tlo thi); done.
Qed.

Lemma count_alerts_app (kind : string → bool) (l k : list string) :
  count_alerts kind (l ++ k) = (count_alerts kind l + count_alerts kind k)%nat.
Proof. unfold count_alerts. by rewrite filter_app, length_app. Qed.

Lemma count_alerts_one (kind : string → bool) (msg : string) :
  kind msg = true → count_alerts kind [msg] = 1%nat.
Proof.
  intros Hk. unfold count_alerts. rewrite filter_cons_True; [reflexivity|exact Hk].
Qed.

Lemma count_alerts_none (kind : string → bool) (msg : string) :
  kind msg = false → count_alerts kind [msg] = 0%nat.
Proof.
  intros Hk. unfold count_alerts. rewrite filter_cons_False; [reflexivity|].
  rewrite Hk. discriminate.
Qed.

Lemma count_ph_part (ph : option Qc) (cfg : sensor_cfg) :
  count_alerts is_ph_alert (ph_part ph cfg) = length (ph_part ph cfg)
  ∧ count_alerts is_temp_alert (ph_part ph cfg) = 0%nat.
Proof.
  unfold ph_part. destruct ph as [v|]; [|split; reflexivity].
  destruct (out_of_range _ _ _); [|split; reflexivity].
  split.
  - apply count_alerts_one. exact (proj1 (ph_message_kind _ _ _)).
  - apply count_alerts_none. exact (proj2 (ph_message_kind _ _ _)).
Qed.

Lemma count_temp_part (temp : option Qc) (cfg : sensor_cfg) :
  count_alerts is_ph_alert (temp_part temp cfg) = 0%nat
  ∧ count_alerts is_temp_alert (temp_part temp cfg) = length (temp_part temp cfg).
Proof.
  unfold temp_part. destruct temp as [v|]; [|split; reflexivity].
  destruct (out_of_range _ _ _); [|split; reflexivity].
  split.
  - apply count_alerts_none. exact (proj1 (temp_message_kind _ _ _)).
  - apply count_alerts_one. exact (proj2 (temp_message_kind _ _ _)).
Qed.

Lemma ph_message_not_temp (v lo hi t tlo thi : Qc) :
  ph_message v lo hi ≠ temp_message t tlo thi.
Proof.
  intros Heq. pose proof (proj1 (ph_message_kind v lo hi)) as Hk.
  rewrite Heq, (proj1 (temp_message_kind _ _ _)) in Hk. done.
Qed.

Definition one_if (b : bool) : nat := if b then 1%nat else 0%nat.

(** C4. For a pH value that is present, [check_alerts] returns the pH
    alert for it if and only if the value is below the lower or above the
    upper bound of [ph_range], it returns at most that one pH alert, and
    the message contains the value and both bounds as the f-string renders
    them; the same holds for the temperature and [temp_range]; a sensor
    value that is absent gives no alert of its kind.  With the pH range
    6 to 8, a reading of pH 9 with no temperature gives exactly the one pH
    alert and a reading of pH 7 gives none. *)
Theorem check_alerts_iff_out_of_range (ph temp : option Qc) (cfg : config)
    (w : world) :
  let alerts := (check_alerts ph temp cfg w).2 in
  let '(lo, hi) := ph_range (sensors cfg) in
  let '(tlo, thi) := temp_range (sensors cfg) in
  match ph with
  | Some v =>
      (ph_message v lo hi ∈ alerts ↔ (v < lo)%Qc ∨ (hi < v)%Qc)
      ∧ count_alerts is_ph_alert alerts
        = one_if (bool_decide ((v < lo)%Qc ∨ (hi < v)%Qc))
      ∧ contains (str_float v) (ph_message v lo hi)
      ∧ contains (str_float lo) (ph_message v lo hi)
      ∧ contains (str_float hi) (ph_message v lo hi)
  | None => count_alerts is_ph_alert alerts = 0%nat
  end
  ∧ match temp with
    | Some t =>
        (temp_message t tlo thi ∈ alerts ↔ (t < tlo)%Qc ∨ (thi < t)%Qc)
        ∧ count_alerts is_temp_alert alerts
          = one_if (bool_decide ((t < tlo)%Qc ∨ (thi < t)%Qc))
        ∧ contains (str_float t) (temp_message t tlo thi)
        ∧ contains (str_float tlo) (temp_message t tlo thi)
        ∧ contains (str_float thi) (temp_message t tlo thi)
    | None => count_alerts is_temp_alert alerts = 0%nat
    end
  ∧ (check_alerts (Some (Qc_of_Z 9)) None
       (with_ph_range cfg (Qc_of_Z 6) (Qc_of_Z 8)) w).2
    = [ph_message (Qc_of_Z 9) (Qc_of_Z 6) (Qc_of_Z 8)]
  ∧ (check_alerts (Some (Qc_of_Z 7)) None
       (with_ph_range cfg (Qc_of_Z 6) (Qc_of_Z 8)) w).2 = [].
Proof.
  cbn zeta. rewrite !check_alerts_parts.
  pose proof (count_ph_part ph (sensors cfg)) as [Hpp Hpt].
  pose proof (count_temp_part temp (sensors cfg)) as [Htp Htt].
  rewrite !count_alerts_app, Hpp, Hpt, Htp, Htt in *.
  unfold ph_part, temp_part in *.
  destruct (ph_range (sensors cfg)) as [lo hi], (temp_range (sensors cfg)) as [tlo thi].
  cbn [fst snd] in *. split; [|split].
  - destruct ph as [v|]; [|done]. split; [|split].
    + rewrite elem_of_app. rewrite <- out_of_range_spec. split.
      * intros [Hin|Hin].
        -- destruct (out_of_range v lo hi); [done|]. by apply elem_of_nil in Hin.
        -- destruct temp as [t|]; [|by apply elem_of_nil in Hin].
           destruct (out_of_range t tlo thi); [|by apply elem_of_nil in Hin].
           apply list_elem_of_singleton in Hin. by apply ph_message_not_temp in Hin.
      * intros ->. left. by left.
    + rewrite Nat.add_0_r. destruct (out_of_range v lo hi) eqn:Hout.
      * rewrite bool_decide_eq_true_2; [reflexivity|]. by apply out_of_range_spec.
      * rewrite bool_decide_eq_false_2; [reflexivity|].
        intros Hr%out_of_range_spec. congruence.
    + apply ph_message_contains.
  - destruct temp as [t|]; [|by destruct ph as [v|]; [destruct (out_of_range v lo hi)|]].
    split; [|split].
    + rewrite elem_of_app. rewrite <- out_of_range_spec. split.
      * intros [Hin|Hin].
        -- destruct ph as [v|]; [|by apply elem_of_nil in Hin].
           destruct (out_of_range v lo hi); [|by apply elem_of_nil in Hin].
           apply list_elem_of_singleton in Hin. symmetry in Hin.
           by apply ph_message_not_temp in Hin.
        -- destruct (out_of_range t tlo thi); [done|]. by apply elem_of_nil in Hin.
      * intros ->. right. by left.
    + cbn [Nat.add]. destruct (out_of_range t tlo thi) eqn:Hout.
      * rewrite bool_decide_eq_true_2; [reflexivity|]. by apply out_of_range_spec.
      * rewrite bool_decide_eq_false_2; [reflexivity|].
        intros Hr%out_of_range_spec. congruence.
    + apply temp_message_contains.
  - split; reflexivity.
Qed.

End WithRendering.

End AlertProofs.

(** ** Startup of the sensor reader *)

Module StartupProofs.
Import SensorReader.

Ltac to_Q :=
  unfold Qcle, Qclt, uniform, Qc_of_decimal in *;
  repeat progress
    (unfold Qcmult, Qcplus, Qcminus, Qcopp, Qcdiv, Qcinv, Q2Qc, Qc_of_Z in *;
     cbn [this] in *; rewrite ?Qred_correct in * );
  unfold inject_Z in *; cbn [Qinv Qnum Qden] in *.

Lemma floor_between (x : Qc) (lo hi : Z) :
  (Qc_of_Z lo ≤ x)%Qc → (x < Qc_of_Z hi)%Qc → (lo ≤ Qfloor x < hi)%Z.
Proof.
  unfold Qcle, Qclt. cbn [this Qc_of_Z]. intros Hlo Hhi. split.
  - rewrite <- (Qfloor_Z lo). by apply Qfloor_resp_le.
  - rewrite Zlt_Qlt. eapply Qle_lt_trans; [apply Qfloor_le|done].
Qed.

Lemma round_half_even_between (x : Qc) (lo hi : Z) :
  (Qc_of_Z lo ≤ x)%Qc → (x < Qc_of_Z hi)%Qc →
  (lo ≤ round_half_even x ≤ hi)%Z.
Proof.
  intros Hlo Hhi. pose proof (floor_between x lo hi Hlo Hhi) as Hf.
  unfold round_half_even. repeat case_bool_decide; try destruct (Z.even _); lia.
Qed.

Lemma scaled_ph (u : Qc) :
  (Qc_of_Z 0 ≤ u)%Qc → (u < Qc_of_Z 1)%Qc →
  (Qc_of_Z 650 ≤ uniform (Qc_of_decimal 6 50) (Qc_of_decimal 7 50) u * Qc_of_Z 100)%Qc
  ∧ (uniform (Qc_of_decimal 6 50) (Qc_of_decimal 7 50) u * Qc_of_Z 100
     < Qc_of_Z 750)%Qc.
Proof. intros H0 H1. to_Q. split; lra. Qed.

Lemma scaled_temp (u : Qc) :
  (Qc_of_Z 0 ≤ u)%Qc → (u < Qc_of_Z 1)%Qc →
  (Qc_of_Z 2200 ≤ uniform (Qc_of_Z 22) (Qc_of_Z 26) u * Qc_of_Z 100)%Qc
  ∧ (uniform (Qc_of_Z 22) (Qc_of_Z 26) u * Qc_of_Z 100 < Qc_of_Z 2600)%Qc.
Proof. intros H0 H1. to_Q. split; lra. Qed.

Section WithParser.

Variable py_float : string → option Qc.

Abbreviation acquire := (acquire py_float).

(** Opening the bus fails: the reader switches to simulation, once. *)
Lemma startup_open_fails (cfg : sensor_cfg) (e : exn) :
  simulate cfg = false →
  startup (mkStartupEnv true (Raise e)) cfg = (None, true).
Proof. intros Hsim. unfold startup. cbn. by rewrite Hsim. Qed.

(** The library is missing: no bus, and [simulate] stays as configured. *)
Lemma startup_no_library (cfg : sensor_cfg) (o : result bus) :
  startup (mkStartupEnv false o) cfg = (None, simulate cfg).
Proof. reflexivity. Qed.

(** Simulation asked for in the configuration: the bus is not even tried. *)
Lemma startup_simulate (env : startup_env) (cfg : sensor_cfg) :
  simulate cfg = true → startup env cfg = (None, true).
Proof.
  intros Hsim. unfold startup. rewrite Hsim. by rewrite andb_false_r.
Qed.

(** In simulation every enabled sensor gives a value in every iteration. *)
Lemma acquire_simulated (cfg : sensor_cfg) (u_ph u_temp : Qc) :
  acquire cfg (None, true) u_ph u_temp =
  (if ph_enabled cfg
   then Some (round2 (uniform (Qc_of_decimal 6 50) (Qc_of_decimal 7 50) u_ph))
   else None,
   if temp_enabled cfg
   then Some (round2 (uniform (Qc_of_Z 22) (Qc_of_Z 26) u_temp))
   else None).
Proof. reflexivity. Qed.

(** The simulated values lie in the fixed ranges: 6.50 to 7.50 for the pH
    and 22.00 to 26.00 for the temperature, in hundredths. *)
Lemma read_ph_simulated (b : option bus) (u : Qc) :
  (Qc_of_Z 0 ≤ u)%Qc → (u < Qc_of_Z 1)%Qc →
  ∃ n : Z, (650 ≤ n ≤ 750)%Z
    ∧ read_ph py_float b true u = Some (Qc_of_Z n / Qc_of_Z 100)%Qc.
Proof.
  intros H0 H1. eexists. split; [|reflexivity].
  apply round_half_even_between; by apply scaled_ph.
Qed.

Lemma read_temperature_simulated (b : option bus) (u : Qc) :
  (Qc_of_Z 0 ≤ u)%Qc → (u < Qc_of_Z 1)%Qc →
  ∃ n : Z, (2200 ≤ n ≤ 2600)%Z
    ∧ read_temperature py_float b true u = Some (Qc_of_Z n / Qc_of_Z 100)%Qc.
Proof.
  intros H0 H1. eexists. split; [|reflexivity].
  apply round_half_even_between; by apply scaled_temp.
Qed.

(** The path that does fall back: the library is there, opening the bus
    raises, and from then on an enabled pH sensor yields a simulated
    value. *)
Lemma fallback_when_open_fails (cfg : sensor_cfg) (e : exn) (u_ph u_temp : Qc) :
  simulate cfg = false →
  ph_enabled cfg = true →
  (Qc_of_Z 0 ≤ u_ph)%Qc → (u_ph < Qc_of_Z 1)%Qc →
  ∃ n : Z, (650 ≤ n ≤ 750)%Z
    ∧ (acquire cfg (startup (mkStartupEnv true (Raise e)) cfg) u_ph u_temp).1
      = Some (Qc_of_Z n / Qc_of_Z 100)%Qc.
Proof.
  intros Hsim Hen H0 H1. rewrite startup_open_fails by done.
  rewrite acquire_simulated, Hen. cbn [fst].
  destruct (read_ph_simulated None u_ph H0 H1) as (n & Hn & Hread).
  exists n. split; [done|]. exact Hread.
Qed.

(** C1 fails on the code when the I2C library is absent.  With
    [simulate] not set in the configuration and [import smbus2] failing,
    startup leaves the reader without a bus and without simulation, and
    every iteration reads an absent value from every sensor, whatever the
    random draws are.  The fallback is taken only on the other path, when
    the library is there and opening the bus raises
    ([startup_open_fails], [acquire_simulated]). *)
Theorem no_fallback_without_i2c_library (cfg : sensor_cfg) (o : result bus)
    (u_ph u_temp : Qc) :
  simulate cfg = false →
  startup (mkStartupEnv false o) cfg = (None, false)
  ∧ acquire cfg (startup (mkStartupEnv false o) cfg) u_ph u_temp = (None, None).
Proof.
  intros Hsim. rewrite startup_no_library, Hsim. split; [done|].
  unfold SensorReader.acquire, read_ph, read_temperature.
  by destruct (ph_enabled cfg), (temp_enabled cfg).
Qed.

End WithParser.

Lemma no_fallback_without_i2c_library_witness :
  simulate default_sensor_cfg = false
  ∧ startup (mkStartupEnv false (Raise OSError)) default_sensor_cfg = (None, false)
  ∧ acquire (λ _, None) default_sensor_cfg
      (startup (mkStartupEnv false (Raise OSError)) default_sensor_cfg)
      (Qc_of_decimal 0 25) (Qc_of_decimal 0 75)
    = (None, None).
Proof.
  split; [reflexivity|].
  apply (no_fallback_without_i2c_library (λ _, None) default_sensor_cfg (Raise OSError)
           (Qc_of_decimal 0 25) (Qc_of_decimal 0 75)).
  reflexivity.
Defined.

End StartupProofs.

(** ** Receiving an alert *)

Module ReceiveProofs.
Import LabBridge.



(** The text of the log, empty if there is no file. *)
Definition log_text (w : world) : string := default "" (alerts_log w).

(** The request body [{"message": m}]. *)
Definition message_body (m : string) : option json :=
  Some (JObj [("message", JStr m)]).

Section WithRepr.

Variable py_repr : json → string.

Abbreviation receive_alert := (receive_alert py_repr).




End WithRepr.



Example two_lines_log :
  log_text (serve (receive_alert (λ _, "")
                     (message_body ("disk full" +:+ LF +:+ "2026-01-01T00:00:00.000000 | all clear"))
                     "2026-11-03T12:00:00.000000")
              (mkWorld ∅ None None)).1
  = "2026-11-03T12:00:00.000000 | disk full" +:+ LF
    +:+ "2026-01-01T00:00:00.000000 | all clear" +:+ LF.
Proof. vm_compute. reflexivity. Qed.

End ReceiveProofs.

(** ** Reading history *)

Module HistoryProofs.
Import LabBridge.

(** The header row as [write_csv] writes it and [csv.reader] reads it. *)
Definition std_header : list string := ["timestamp"; "ph"; "temp_c"].

(** *** The window *)

(** Within the range of [datetime] the cutoff is [now] minus the hours. *)
Lemma history_cutoff_ok (hours now : Z) :
  (0 ≤ now - hours * 3600000000 < MAX_US)%Z →
  (0 ≤ now < MAX_US)%Z →
  history_cutoff hours now = Ok (now - hours * 3600000000)%Z.
Proof.
  unfold MAX_US. intros Hc Hn. unfold history_cutoff, timedelta_hours.
  assert (Hd : (Z.abs ((hours * 3600) `div` 86400) ≤ 999999999)%Z).
  { assert (-3652059 ≤ (hours * 3600) `div` 86400 ≤ 3652059)%Z; [|lia].
    split.
    - apply Z.div_le_lower_bound; lia.
    - apply Z.div_le_upper_bound; lia. }
  apply Z.ltb_ge in Hd. rewrite Hd. cbn [mbind result_bind].
  unfold datetime_sub, MAX_US.
  replace (now - hours * 3600 * 1000000)%Z with (now - hours * 3600000000)%Z by lia.
  destruct Hc as [Hc1 Hc2]. apply Z.leb_le in Hc1. apply Z.ltb_lt in Hc2.
  by rewrite Hc1, Hc2.
Qed.

(** Outside of it the subtraction raises. *)
Lemma history_cutoff_overflow (hours now : Z) :
  ¬ (0 ≤ now - hours * 3600000000 < MAX_US)%Z →
  history_cutoff hours now = Raise OverflowError.
Proof.
  intros Hc. unfold history_cutoff, timedelta_hours.
  destruct (999999999 <? _)%Z; [done|]. cbn [mbind result_bind].
  unfold datetime_sub.
  replace (now - hours * 3600 * 1000000)%Z with (now - hours * 3600000000)%Z by lia.
  destruct (0 <=? _)%Z eqn:H1; [|done].
  destruct (_ <? MAX_US)%Z eqn:H2; [|done].
  apply Z.leb_le in H1. apply Z.ltb_lt in H2. lia.
Qed.

(** *** Rows under the standard header *)

Lemma dict_of_three (ts ph temp : string) :
  dict_of std_header [ts; ph; temp]
  = <["temp_c" := Some temp]> (<["ph" := Some ph]> (<["timestamp" := Some ts]> ∅)).
Proof. reflexivity. Qed.

Lemma render_three (ts ph temp : string) :
  render_row (dict_of std_header [ts; ph; temp])
  = ts +:+ "," +:+ ph +:+ "," +:+ temp.
Proof.
  rewrite dict_of_three. unfold render_row, get_str.
  rewrite lookup_insert_ne by done. rewrite lookup_insert_ne by done.
  rewrite lookup_insert_eq.
  rewrite lookup_insert_ne by done. rewrite lookup_insert_eq.
  rewrite lookup_insert_eq. reflexivity.
Qed.

(** A row that is not blank always has a text for its timestamp: the
    column comes first. *)
Lemma timestamp_of_row (ts : string) (rest : list string) :
  dict_of std_header (ts :: rest) !! "timestamp" = Some (Some ts).
Proof.
  destruct rest as [|ph [|temp rest]]; unfold dict_of, std_header; cbn.
  - rewrite lookup_insert_ne by done. rewrite lookup_insert_ne by done.
    apply lookup_insert_eq.
  - rewrite lookup_insert_ne by done. rewrite lookup_insert_ne by done.
    apply lookup_insert_eq.
  - rewrite drop_ge by (cbn; lia). cbn.
    rewrite lookup_insert_ne by done. rewrite lookup_insert_ne by done.
    apply lookup_insert_eq.
Qed.

(** A header without a timestamp column: no row has the key. *)
Lemma foldl_insert_absent (key : string) (kvs : list (string * string))
    (d : row_dict) :
  key ∉ kvs.*1 → d !! key = None →
  foldl (λ d kv, <[kv.1 := Some kv.2]> d) d kvs !! key = None.
Proof.
  revert d. induction kvs as [|[k v] kvs IH]; intros d Hk Hd; [done|].
  cbn in *. apply not_elem_of_cons in Hk as [Hne Hk].
  apply IH; [done|]. by rewrite lookup_insert_ne.
Qed.

Lemma foldl_fill_absent (key : string) (keys : list string) (d : row_dict) :
  key ∉ keys → d !! key = None →
  foldl (λ d k, <[k := None]> d) d keys !! key = None.
Proof.
  revert d. induction keys as [|k keys IH]; intros d Hk Hd; [done|].
  cbn. apply not_elem_of_cons in Hk as [Hne Hk].
  apply IH; [done|]. by rewrite lookup_insert_ne.
Qed.

Lemma dict_of_absent (key : string) (fieldnames row : list string) :
  key ∉ fieldnames → dict_of fieldnames row !! key = None.
Proof.
  intros Hk. unfold dict_of. apply foldl_fill_absent.
  - intros Hin. apply Hk. apply list_elem_of_lookup in Hin as [i Hi].
    rewrite lookup_drop in Hi. by eapply list_elem_of_lookup_2.
  - apply foldl_insert_absent; [|done].
    intros Hin. apply Hk. apply list_elem_of_fmap in Hin as [[k v] [-> Hin]].
    apply list_elem_of_lookup in Hin as [i Hi].
    apply lookup_zip_with_Some in Hi as (x & y & [= -> ->] & Hx & Hy).
    by eapply list_elem_of_lookup_2.
Qed.

(** *** Which rows are selected *)

Section WithParser.

Variable fromisoformat : string → iso_parse.

Abbreviation row_in_window := (row_in_window fromisoformat).
Abbreviation select_rows := (select_rows fromisoformat).
Abbreviation sensors_history := (sensors_history fromisoformat).


(** A row as [write_csv] leaves it: three fields, and a timestamp that is
    not an aware one. *)
Definition plain_row (row : list string) : bool :=
  match row with
  | [ts; _; _] =>
      match fromisoformat ts with
      | IsoAware _ _ => false
      | _ => true
      end
  | _ => false
  end.

(** The timestamp parses and is at or after the cutoff. *)
Definition in_window (cutoff : Z) (row : list string) : bool :=
  match row with
  | ts :: _ =>
      match fromisoformat ts with
      | IsoNaive t => bool_decide (cutoff ≤ t)%Z
      | _ => false
      end
  | [] => false
  end.

(** The line the response has for a row of three fields. *)
Definition line_of (row : list string) : string := String.concat "," row.

Lemma select_rows_cons_false (cutoff : Z) (d : row_dict) (ds : list row_dict) :
  row_in_window cutoff d = Ok false →
  select_rows cutoff (d :: ds) = select_rows cutoff ds.
Proof.
  intros Hd. cbn [LabBridge.select_rows]. rewrite Hd. cbn [mbind result_bind].
  by destruct (select_rows cutoff ds).
Qed.


Lemma DictReader_cons (row : list string) (rows : list (list string)) :
  DictReader (std_header :: row :: rows) =
  match row with
  | [] => DictReader (std_header :: rows)
  | _ :: _ => dict_of std_header row :: DictReader (std_header :: rows)
  end.
Proof.
  unfold DictReader. destruct row as [|x row].
  - by rewrite filter_cons_False by (intros Hne; by apply Hne).
  - by rewrite filter_cons_True by done.
Qed.



(** For rows as the poller writes them the selection is a filter. *)
Lemma select_rows_plain (cutoff : Z) (rows : list (list string)) :
  forallb plain_row rows = true →
  select_rows cutoff (DictReader (std_header :: rows))
  = Ok (dict_of std_header <$> filter (λ r, in_window cutoff r = true) rows).
Proof.
  induction rows as [|row rows IH]; [done|]. cbn [forallb].
  intros [Hrow Hrows]%andb_true_iff. specialize (IH Hrows).
  rewrite DictReader_cons.
  destruct row as [|ts [|ph [|temp [|extra rest]]]]; try done.
  cbn [LabBridge.select_rows]. rewrite IH. unfold LabBridge.row_in_window.
  rewrite timestamp_of_row. unfold plain_row in Hrow. unfold in_window at 2.
  destruct (fromisoformat ts) as [|t|t off] eqn:Hts; try done.
  - cbn [mbind result_bind]. rewrite filter_cons_False; [done|].
    unfold in_window. rewrite Hts. done.
  - cbn [mbind result_bind]. case_bool_decide as Hc.
    + rewrite filter_cons_True; [done|]. unfold in_window. rewrite Hts.
      by apply bool_decide_eq_true_2.
    + rewrite filter_cons_False; [done|]. unfold in_window. rewrite Hts.
      rewrite bool_decide_eq_false_2 by done. done.
Qed.

Lemma plain_rows_render (rows : list (list string)) :
  forallb plain_row rows = true →
  render_row <$> (dict_of std_header <$> rows) = line_of <$> rows.
Proof.
  induction rows as [|row rows IH]; [done|]. cbn [forallb].
  intros [Hrow Hrows]%andb_true_iff. rewrite !fmap_cons, IH by done. f_equal.
  destruct row as [|ts [|ph [|temp [|extra rest]]]];
    first [discriminate Hrow | apply render_three].
Qed.

Lemma forallb_filter {A} (p : A → bool) (P : A → Prop) `{∀ x, Decision (P x)}
    (l : list A) :
  forallb p l = true → forallb p (filter P l) = true.
Proof.
  induction l as [|x l IH]; [done|]. cbn [forallb].
  intros [Hx Hl]%andb_true_iff. destruct (decide (P x)).
  - rewrite filter_cons_True by done. cbn [forallb]. by rewrite Hx, IH.
  - rewrite filter_cons_False by done. by apply IH.
Qed.

(** *** The handler *)

Definition header_only : response := csv_response (header_line +:+ LF).

(** The table for the selected rows. *)
Definition table_of (rows : list row_dict) : response :=
  match rows with
  | [] => header_only
  | _ :: _ => csv_response (join_lines (header_line :: (render_row <$> rows)))
  end.

Lemma table_of_lines (rows : list row_dict) :
  table_of rows = csv_response (join_lines (header_line :: (render_row <$> rows))).
Proof. by destruct rows. Qed.

Lemma run_sensors_history (hours_arg : option Z) (now : Z) (w : world) :
  sensors_history hours_arg now w =
  (w,
   cutoff ← history_cutoff (default 24%Z hours_arg) now;
   match sensor_csv w with
   | None => Ok header_only
   | Some csv_rows => table_of <$> select_rows cutoff (DictReader csv_rows)
   end).
Proof.
  unfold LabBridge.sensors_history. io_run.
  destruct (history_cutoff _ now) as [cutoff|e]; [|done].
  io_run. cbn [mbind result_bind]. destruct (sensor_csv w) as [csv_rows|]; [|done].
  io_run. destruct (select_rows cutoff (DictReader csv_rows)) as [[|r rows]|e]; done.
Qed.

(** What the client gets for what the handler returns or raises. *)
Definition answer (r : result response) : response :=
  match r with
  | Ok resp => resp
  | Raise _ => InternalServerError
  end.

Lemma serve_sensors_history (hours_arg : option Z) (now : Z) (w : world) :
  serve (sensors_history hours_arg now) w =
  (w,
   answer (cutoff ← history_cutoff (default 24%Z hours_arg) now;
           match sensor_csv w with
           | None => Ok header_only
           | Some csv_rows => table_of <$> select_rows cutoff (DictReader csv_rows)
           end)).
Proof.
  unfold serve. rewrite run_sensors_history.
  by destruct (history_cutoff _ now ≫= _).
Qed.

(** The readings file with the given rows under the given header. *)
Definition with_log (w : world) (header : list string) (rows : list (list string))
    : world :=
  mkWorld (camera_dir w) (Some (header :: rows)) (alerts_log w).


(** The same for a file whose header has no timestamp column at all, as
    when the file was made without a header: every row is passed over. *)
Lemma no_timestamp_column (hours_arg : option Z) (now : Z)
    (header : list string) (rows : list (list string)) (w : world) :
  "timestamp" ∉ header →
  (serve (sensors_history hours_arg now) (with_log w header rows)).2
  = (serve (sensors_history hours_arg now) (with_log w header [])).2.
Proof.
  intros Hk. rewrite !serve_sensors_history. cbn [with_log sensor_csv snd].
  destruct (history_cutoff _ now) as [cutoff|e]; [|done].
  cbn [mbind result_bind].
  assert (Hsel : ∀ rs, select_rows cutoff (dict_of header <$> rs) = Ok []).
  { induction rs as [|r rs IH]; [done|]. rewrite fmap_cons.
    rewrite select_rows_cons_false; [exact IH|].
    unfold LabBridge.row_in_window. by rewrite dict_of_absent. }
  unfold DictReader. by rewrite Hsel.
Qed.


End WithParser.

(** *** A parser to run the handler with

    [iso_layout] reads the layout that [datetime.isoformat()] writes for
    a naive datetime, [YYYY-MM-DDTHH:MM:SS] with an optional [.ffffff],
    and rejects everything else. *)

Definition digit (c : ascii) : option Z :=
  let n := Z.of_N (N_of_ascii c) in
  if (48 <=? n)%Z && (n <=? 57)%Z then Some (n - 48)%Z else None.

Fixpoint digits (acc : Z) (s : string) : option Z :=
  match s with
  | EmptyString => Some acc
  | String c rest => d ← digit c; digits (acc * 10 + d)%Z rest
  end.

Definition is_leap (y : Z) : bool :=
  ((y `mod` 4 =? 0) && (negb (y `mod` 100 =? 0) || (y `mod` 400 =? 0)))%Z.

Definition days_in_month (y m : Z) : Z :=
  if (m =? 2)%Z then (if is_leap y then 29 else 28)%Z
  else if ((m =? 4) || (m =? 6) || (m =? 9) || (m =? 11))%Z then 30%Z
  else 31%Z.

Definition days_before_year (y : Z) : Z :=
  let p := (y - 1)%Z in (p * 365 + p `div` 4 - p `div` 100 + p `div` 400)%Z.

Fixpoint days_before_month (y : Z) (months : nat) : Z :=
  match months with
  | O => 0%Z
  | S k => (days_before_month y k + days_in_month y (Z.of_nat (S k)))%Z
  end.

Definition expect (c : string) (pos : nat) (s : string) : option unit :=
  if bool_decide (substring pos 1 s = c) then Some tt else None.

Definition in_range (lo hi x : Z) : option unit :=
  if (lo <=? x)%Z && (x <=? hi)%Z then Some tt else None.

Definition iso_fields (s : string) : option Z :=
  y ← digits 0 (substring 0 4 s);
  mo ← digits 0 (substring 5 2 s);
  d ← digits 0 (substring 8 2 s);
  h ← digits 0 (substring 11 2 s);
  mi ← digits 0 (substring 14 2 s);
  sec ← digits 0 (substring 17 2 s);
  us ← (if bool_decide (String.length s = 26%nat)
        then expect "." 19 s ;; digits 0 (substring 20 6 s)
        else if bool_decide (String.length s = 19%nat) then Some 0%Z else None);
  expect "-" 4 s ;; expect "-" 7 s ;; expect "T" 10 s ;;
  expect ":" 13 s ;; expect ":" 16 s ;;
  in_range 1 9999 y ;; in_range 1 12 mo ;; in_range 1 (days_in_month y mo) d ;;
  in_range 0 23 h ;; in_range 0 59 mi ;; in_range 0 59 sec ;;
  let days := (days_before_year y + days_before_month y (Z.to_nat (mo - 1)) + (d - 1))%Z in
  Some ((((days * 24 + h) * 60 + mi) * 60 + sec) * 1000000 + us)%Z.

Definition iso_layout (s : string) : iso_parse :=
  match iso_fields s with
  | Some t => IsoNaive t
  | None => IsoError
  end.

Example iso_layout_seconds :
  iso_layout "2026-11-03T12:00:30" = IsoNaive 63929304030000000.
Proof. vm_compute. reflexivity. Qed.

Example iso_layout_micros :
  iso_layout "2026-11-02T11:59:59.999999" = IsoNaive 63929217599999999.
Proof. vm_compute. reflexivity. Qed.

Example iso_layout_leap_day :
  iso_layout "2024-02-29T00:00:00" = IsoNaive 63844761600000000.
Proof. vm_compute. reflexivity. Qed.

Example iso_layout_last :
  iso_layout "9999-12-31T23:59:59.999999" = IsoNaive (MAX_US - 1).
Proof. vm_compute. reflexivity. Qed.

Example iso_layout_rejects :
  iso_layout "" = IsoError
  ∧ iso_layout "2026-11-03T12:0" = IsoError
  ∧ iso_layout "2026-02-30T00:00:00" = IsoError
  ∧ iso_layout "yesterday" = IsoError.
Proof. vm_compute. repeat split. Qed.

(** *** The handler at work *)

(** 2026-11-03T12:00:30 *)
Definition example_now : Z := 63929304030000000.

(** Four readings; with a window of 24 hours the cutoff falls exactly on
    the timestamp of the third. *)
Definition example_rows : list (list string) :=
  [ ["2026-11-01T08:00:00.500000"; "7.02"; "24.5"];
    ["2026-11-02T11:59:59.999999"; "7.1"; ""];
    ["2026-11-02T12:00:30"; ""; "24.6"];
    ["2026-11-03T12:00:00.000123"; "6.98"; "24.7"] ].

Definition example_world : world :=
  mkWorld ∅ (Some (std_header :: example_rows)) None.


Example history_last_day :
  (serve (sensors_history iso_layout (Some 24%Z) example_now) example_world).2
  = csv_response
      ("timestamp,ph,temp_c" +:+ LF
       +:+ "2026-11-02T12:00:30,,24.6" +:+ LF
       +:+ "2026-11-03T12:00:00.000123,6.98,24.7" +:+ LF).
Proof. vm_compute. reflexivity. Qed.

Example history_no_match :
  (serve (sensors_history iso_layout (Some 0%Z) example_now) example_world).2
  = csv_response ("timestamp,ph,temp_c" +:+ LF).
Proof. vm_compute. reflexivity. Qed.

Example history_no_file :
  (serve (sensors_history iso_layout None example_now) (mkWorld ∅ None None)).2
  = csv_response ("timestamp,ph,temp_c" +:+ LF).
Proof. vm_compute. reflexivity. Qed.


Example overflow_gives_500 :
  (serve (sensors_history iso_layout (Some 20000000%Z) example_now) example_world).2
  = InternalServerError.
Proof. vm_compute. reflexivity. Qed.

(** Torn and foreign rows among the readings are passed over. *)
Example history_skips_bad_rows :
  (serve (sensors_history iso_layout (Some 24%Z) example_now)
     (with_log example_world std_header
        [ ["2026-11-03T09:00:00"; "7.0"; "24.0"];
          [];
          [""; "7.3"; "24.1"];
          ["not a date"; "7.3"; "24.1"];
          ["2026-11-03T10:00:00"; "7.2"; "24.2"];
          ["2026-11-03T11:0"] ])).2
  = csv_response
      ("timestamp,ph,temp_c" +:+ LF
       +:+ "2026-11-03T09:00:00,7.0,24.0" +:+ LF
       +:+ "2026-11-03T10:00:00,7.2,24.2" +:+ LF).
Proof. vm_compute. reflexivity. Qed.

End HistoryProofs.

(** * The rest of the services *)

(** ** load_config *)

Module Config.

(** A value of a YAML document below the level of a section. *)
#[warnings="-register-all"] Inductive value : Type :=
  | VNull
  | VBool (b : bool)
  | VNum (x : Qc)
  | VStr (s : string)
  | VList (items : list value).

(** What stands under a top-level key: a plain value or a mapping. *)
Inductive node : Type :=
  | Leaf (v : value)
  | Mapping (m : gmap string value).

(** What [yaml.safe_load] returns: a mapping or anything else; an empty
    file loads as [None], here [DocValue VNull]. *)
Inductive document : Type :=
  | DocValue (v : value)
  | DocMapping (m : gmap string node).

(** Python's truth value. *)
Definition value_truthy (v : value) : bool :=
  match v with
  | VNull => false
  | VBool b => b
  | VNum x => negb (bool_decide (x = Qc_of_Z 0))
  | VStr s => negb (bool_decide (s = ""))
  | VList items => negb (bool_decide (length items = 0%nat))
  end.

Definition node_truthy (n : node) : bool :=
  match n with
  | Leaf v => value_truthy v
  | Mapping m => negb (bool_decide (m = ∅))
  end.

(** [yaml.safe_load(f) or {}], then the [.get] calls need a dict. *)
Definition loaded (doc : document) : result (gmap string node) :=
  match doc with
  | DocMapping m => Ok m
  | DocValue v => if value_truthy v then Raise AttributeError else Ok ∅
  end.

(** [{**defaults, **(cfg.get(name) or {})}]: a section that is missing or
    falsy counts as empty; one that is truthy and no mapping cannot be
    unpacked. *)
Definition merge_section (defaults : gmap string value) (cfg : gmap string node)
    (name : string) : result (gmap string value) :=
  match cfg !! name with
  | None => Ok defaults
  | Some n =>
      if node_truthy n then
        match n with
        | Mapping m => Ok (m ∪ defaults)
        | Leaf _ => Raise TypeError
        end
      else Ok defaults
  end.

Definition default_server : node := Leaf (VStr "192.168.1.100:8000").

(** *** camera_monitor.py *)

Record camera_config : Type := mkCameraConfig {
  camera : gmap string value;
  camera_server : node;
}.

Definition camera_defaults : gmap string value :=
  <["device" := VStr "/dev/video0"]>
  (<["interval_seconds" := VNum (Qc_of_Z 30)]>
  (<["keep_hours" := VNum (Qc_of_Z 24)]>
  (<["upload_to_server" := VBool false]> ∅))).

(** [load_config]; [file] is [None] when opening raises
    [FileNotFoundError]. *)
Definition camera_load_config (file : option document) : result camera_config :=
  match file with
  | None => Ok (mkCameraConfig camera_defaults default_server)
  | Some doc =>
      cfg ← loaded doc;
      cam ← merge_section camera_defaults cfg "camera";
      Ok (mkCameraConfig cam (default default_server (cfg !! "neverot_server")))
  end.

(** *** sensor_reader.py *)

Record sensor_config : Type := mkSensorConfig {
  sensors : gmap string value;
  sensor_server : node;
  alerts : gmap string value;
}.

Definition sensor_defaults : gmap string value :=
  <["ph_enabled" := VBool true]>
  (<["temp_enabled" := VBool true]>
  (<["read_interval_seconds" := VNum (Qc_of_Z 10)]>
  (<["ph_range" := VList [VNum (Qc_of_Z 4); VNum (Qc_of_Z 10)]]>
  (<["temp_range" := VList [VNum (Qc_of_Z 15); VNum (Qc_of_Z 45)]]>
  (<["simulate" := VBool false]> ∅))))).

Definition alerts_defaults : gmap string value :=
  <["telegram_chat_id" := VStr ""]> (<["email" := VStr ""]> ∅).

Definition sensor_load_config (file : option document) : result sensor_config :=
  match file with
  | None => Ok (mkSensorConfig sensor_defaults default_server alerts_defaults)
  | Some doc =>
      cfg ← loaded doc;
      sensors ← merge_section sensor_defaults cfg "sensors";
      alerts ← merge_section alerts_defaults cfg "alerts";
      Ok (mkSensorConfig sensors (default default_server (cfg !! "neverot_server"))
            alerts)
  end.

(** *** lab_bridge.py *)

(** [load_config]: the document itself, [{}] for a missing file or a
    falsy document. *)
Definition bridge_load_config (file : option document) : document :=
  match file with
  | None => DocMapping ∅
  | Some (DocMapping m) => DocMapping m
  | Some (DocValue v) => if value_truthy v then DocValue v else DocMapping ∅
  end.

End Config.

Module ConfigProofs.
Import Config.

(** The section the user wrote under [name], if it is a mapping. *)
Definition user_section (file : option document) (name : string)
    : gmap string value :=
  match file with
  | Some (DocMapping m) =>
      match m !! name with
      | Some (Mapping mm) => mm
      | _ => ∅
      end
  | _ => ∅
  end.

(** The top-level value the user wrote under [name], if any. *)
Definition user_top (file : option document) (name : string) : option node :=
  match file with
  | Some (DocMapping m) => m !! name
  | _ => None
  end.

Definition override (user defaults : gmap string value) (k : string)
    : option value :=
  match user !! k with
  | Some v => Some v
  | None => defaults !! k
  end.

Lemma lookup_union_override (user defaults : gmap string value) (k : string) :
  (user ∪ defaults) !! k = override user defaults k.
Proof.
  unfold override. rewrite lookup_union. by destruct (user !! k), (defaults !! k).
Qed.

Lemma merge_section_lookup (defaults : gmap string value) (m : gmap string node)
    (name : string) (merged : gmap string value) (k : string) :
  merge_section defaults m name = Ok merged →
  merged !! k = override (user_section (Some (DocMapping m)) name) defaults k.
Proof.
  unfold merge_section, user_section.
  destruct (m !! name) as [[v|mm]|] eqn:Hn.
  - cbn [node_truthy]. destruct (value_truthy v); [done|]. by intros [= <-].
  - cbn [node_truthy]. case_bool_decide as He; cbn [negb].
    + intros [= <-]. subst mm. done.
    + intros [= <-]. apply lookup_union_override.
  - by intros [= <-].
Qed.

Lemma loaded_Ok (doc : document) (cfg : gmap string node) :
  loaded doc = Ok cfg →
  ∀ name, user_section (Some doc) name = user_section (Some (DocMapping cfg)) name
          ∧ user_top (Some doc) name = cfg !! name.
Proof.
  destruct doc as [v|m]; cbn.
  - destruct (value_truthy v); [done|]. by intros [= <-] name.
  - by intros [= <-] name.
Qed.

(** X1. Whenever the camera monitor's [load_config] returns, every setting
    of the camera section is the one the user wrote, or else the
    default; so the four settings [main] reads are always there.  The
    server is what stands under [neverot_server], even an explicit null,
    and the default only when the key is missing. *)
Theorem camera_load_config_merges (file : option document) (cfg : camera_config) :
  camera_load_config file = Ok cfg →
  (∀ k, camera cfg !! k = override (user_section file "camera") camera_defaults k)
  ∧ (∀ k, is_Some (camera_defaults !! k) → is_Some (camera cfg !! k))
  ∧ camera_server cfg = default default_server (user_top file "neverot_server").
Proof.
  intros Hload.
  assert (Hk : ∀ k, camera cfg !! k
                    = override (user_section file "camera") camera_defaults k
               ∧ camera_server cfg
                 = default default_server (user_top file "neverot_server")).
  { destruct file as [doc|]; cbn in Hload.
    - destruct (loaded doc) as [m|e] eqn:Hdoc; [|done]. cbn in Hload.
      destruct (merge_section camera_defaults m "camera") as [cam|e] eqn:Hcam;
        [|done].
      cbn in Hload. injection Hload as <-. cbn [camera camera_server]. intros k.
      destruct (loaded_Ok doc m Hdoc "camera") as [-> _].
      destruct (loaded_Ok doc m Hdoc "neverot_server") as [_ ->].
      split; [|done]. by apply merge_section_lookup.
    - injection Hload as <-. intros k. done. }
  split; [intros k; apply Hk|]. split; [|apply (Hk "")].
  intros k [v Hv]. rewrite (proj1 (Hk k)). unfold override.
  destruct (user_section file "camera" !! k); [done|]. by rewrite Hv.
Qed.

(** A file that sets two camera settings, one of them unknown to the
    program, and has [neverot_server:] with nothing after it. *)
Definition example_file : option document :=
  Some (DocMapping
    (<["camera" := Mapping (<["keep_hours" := VNum (Qc_of_Z 48)]>
                            (<["resolution" := VStr "640x480"]> ∅))]>
    (<["neverot_server" := Leaf VNull]> ∅))).

Definition example_config : camera_config :=
  mkCameraConfig
    (<["keep_hours" := VNum (Qc_of_Z 48)]>
     (<["resolution" := VStr "640x480"]> camera_defaults))
    (Leaf VNull).

Lemma camera_load_config_merges_witness :
  camera_load_config example_file = Ok example_config
  ∧ (∀ k, camera example_config !! k
          = override (user_section example_file "camera") camera_defaults k)
  ∧ (∀ k, is_Some (camera_defaults !! k) → is_Some (camera example_config !! k))
  ∧ camera_server example_config
    = default default_server (user_top example_file "neverot_server").
Proof.
  assert (H : camera_load_config example_file = Ok example_config)
    by (vm_compute; reflexivity).
  split; [exact H|].
  exact (camera_load_config_merges example_file example_config H).
Defined.

Lemma merge_section_raises (defaults : gmap string value) (m : gmap string node)
    (name : string) (e : exn) :
  merge_section defaults m name = Raise e ↔
  e = TypeError ∧ ∃ v, m !! name = Some (Leaf v) ∧ value_truthy v = true.
Proof.
  unfold merge_section. destruct (m !! name) as [[v|mm]|]; cbn [node_truthy].
  - destruct (value_truthy v) eqn:Hv.
    + split; [intros [= <-]; eauto|]. by intros [-> _].
    + split; [done|]. intros [_ (v' & [= <-] & Hv')]. congruence.
  - destruct (negb _); (split; [done|]); by intros [_ (v' & [=] & _)].
  - split; [done|]. by intros [_ (v' & [=] & _)].
Qed.

(** X2. For a configuration file that parses, the camera monitor's
    [load_config] raises in two cases only: the
    document is something truthy other than a mapping, so that [.get]
    does not exist ([AttributeError]), or the [camera] key holds something
    truthy other than a mapping, which cannot be unpacked ([TypeError]).
    A missing file, an empty file and a missing or empty section load. *)
Theorem camera_load_config_raises (file : option document) (e : exn) :
  camera_load_config file = Raise e ↔
  (e = AttributeError ∧ ∃ v, file = Some (DocValue v) ∧ value_truthy v = true)
  ∨ (e = TypeError
     ∧ ∃ m v, file = Some (DocMapping m) ∧ m !! "camera" = Some (Leaf v)
              ∧ value_truthy v = true).
Proof.
  destruct file as [[v|m]|]; cbn.
  - destruct (value_truthy v) eqn:Hv; cbn.
    + split; [intros [= <-]; left; eauto|].
      intros [[-> _]|[_ (m & v' & [=] & _)]]. done.
    + split; [done|].
      intros [[_ (v' & [= <-] & Hv')]|[_ (m & v' & [=] & _)]]. congruence.
  - destruct (merge_section camera_defaults m "camera") as [cam|e'] eqn:Hm; cbn.
    + split; [done|]. intros [[_ (v' & [=] & _)]|[-> (m' & v & [= <-] & Hv)]].
      assert (merge_section camera_defaults m "camera" = Raise TypeError) as Hr
        by (apply merge_section_raises; eauto).
      congruence.
    + apply merge_section_raises in Hm as [-> (v & Hv)].
      split; [intros [= <-]; right; split; [done|]; by exists m, v|].
      by intros [[_ (v' & [=] & _)]|[-> _]].
  - split; [done|]. by intros [[_ (v' & [=] & _)]|[_ (m & v & [=] & _)]].
Qed.

(** X3. The sensor reader's [load_config] merges the [sensors] and the
    [alerts] section in the same way, each over its own defaults. *)
Theorem sensor_load_config_merges (file : option document) (cfg : sensor_config) :
  sensor_load_config file = Ok cfg →
  (∀ k, sensors cfg !! k = override (user_section file "sensors") sensor_defaults k)
  ∧ (∀ k, alerts cfg !! k = override (user_section file "alerts") alerts_defaults k)
  ∧ (∀ k, is_Some (sensor_defaults !! k) → is_Some (sensors cfg !! k))
  ∧ sensor_server cfg = default default_server (user_top file "neverot_server").
Proof.
  intros Hload.
  assert (Hk : (∀ k, sensors cfg !! k
                     = override (user_section file "sensors") sensor_defaults k)
               ∧ (∀ k, alerts cfg !! k
                       = override (user_section file "alerts") alerts_defaults k)
               ∧ sensor_server cfg
                 = default default_server (user_top file "neverot_server")).
  { destruct file as [doc|]; cbn in Hload.
    - destruct (loaded doc) as [m|e] eqn:Hdoc; [|done]. cbn in Hload.
      destruct (merge_section sensor_defaults m "sensors") as [sen|e] eqn:Hsen;
        [|done].
      cbn in Hload.
      destruct (merge_section alerts_defaults m "alerts") as [al|e] eqn:Hal;
        [|done].
      cbn in Hload. injection Hload as <-.
      cbn [sensors alerts sensor_server].
      destruct (loaded_Ok doc m Hdoc "sensors") as [-> _].
      destruct (loaded_Ok doc m Hdoc "alerts") as [-> _].
      destruct (loaded_Ok doc m Hdoc "neverot_server") as [_ ->].
      split; [intros k; by apply merge_section_lookup|].
      split; [intros k; by apply merge_section_lookup|done].
    - injection Hload as <-. done. }
  destruct Hk as (Hs & Ha & Hserver).
  split; [exact Hs|]. split; [exact Ha|]. split; [|exact Hserver].
  intros k [v Hv]. rewrite Hs. unfold override.
  destruct (user_section file "sensors" !! k); [done|]. by rewrite Hv.
Qed.

(** The user turns simulation on and narrows the pH range; nothing else. *)
Definition example_sensor_file : option document :=
  Some (DocMapping
    (<["sensors" := Mapping (<["simulate" := VBool true]>
                             (<["ph_range" := VList [VNum (Qc_of_Z 6); VNum (Qc_of_Z 8)]]> ∅))]>
     ∅)).

Definition example_sensor_config : sensor_config :=
  mkSensorConfig
    (<["simulate" := VBool true]>
     (<["ph_range" := VList [VNum (Qc_of_Z 6); VNum (Qc_of_Z 8)]]> sensor_defaults))
    default_server alerts_defaults.

Lemma sensor_load_config_merges_witness :
  sensor_load_config example_sensor_file = Ok example_sensor_config
  ∧ (∀ k, sensors example_sensor_config !! k
          = override (user_section example_sensor_file "sensors") sensor_defaults k)
  ∧ (∀ k, alerts example_sensor_config !! k
          = override (user_section example_sensor_file "alerts") alerts_defaults k)
  ∧ (∀ k, is_Some (sensor_defaults !! k) → is_Some (sensors example_sensor_config !! k))
  ∧ sensor_server example_sensor_config
    = default default_server (user_top example_sensor_file "neverot_server").
Proof.
  assert (H : sensor_load_config example_sensor_file = Ok example_sensor_config)
    by (vm_compute; reflexivity).
  split; [exact H|].
  exact (sensor_load_config_merges example_sensor_file example_sensor_config H).
Defined.

End ConfigProofs.

(** ** More on the camera monitor *)

Module CameraExtras.
Import CameraMonitor.




(** X4. [capture_frame] hands out bytes exactly when [cv2] is there, the
    device opens, the read succeeds with a frame and the encoder
    succeeds, and then they are the encoder's bytes; it raises exactly
    when the read or the encoder raises.  In every other case it returns
    [None]. *)
Theorem capture_frame_outcomes (hw : camera_hw) (device_path : string) :
  let cap := VideoCapture hw (dev_index hw device_path) in
  (∀ buf, capture_frame hw device_path = Ok (Some buf) ↔
     HAS_CV2 hw = true ∧ isOpened cap = true
     ∧ ∃ fr, read cap = Ok (true, Some fr) ∧ imencode hw fr = Ok (true, buf))
  ∧ (∀ e, capture_frame hw device_path = Raise e ↔
       HAS_CV2 hw = true ∧ isOpened cap = true
       ∧ (read cap = Raise e
          ∨ ∃ fr, read cap = Ok (true, Some fr) ∧ imencode hw fr = Raise e)).
Proof.
  cbn zeta. unfold capture_frame.
  destruct (HAS_CV2 hw); cbn [negb].
  2:{ split; intros x; (split; [done|]); by intros [? _]. }
  destruct (isOpened _); cbn [negb].
  2:{ split; intros x; (split; [done|]); by intros (_ & ? & _). }
  destruct (read _) as [[ret frame]|e0]; cbn [mbind result_bind].
  2:{ split.
      - intros buf. split; [done|]. by intros (_ & _ & fr & [=] & _).
      - intros e. split.
        + intros [= <-]. eauto.
        + intros (_ & _ & [[= <-]|(fr & [=] & _)]). done. }
  destruct ret, frame as [fr|].
  2-4: split; intros x; (split; [done|]);
       [by intros (_ & _ & fr' & [=] & _)
       |by intros (_ & _ & [[=]|(fr' & [=] & _)])].
  destruct (imencode hw fr) as [[success buf0]|e0] eqn:Henc; cbn [mbind result_bind].
  - destruct success; cbn [negb]; split.
    + intros buf. split.
      * intros [= <-]. eauto 6.
      * intros (_ & _ & fr' & [= <-] & Henc'). congruence.
    + intros e. split; [done|].
      intros (_ & _ & [[=]|(fr' & [= <-] & Henc')]). congruence.
    + intros buf. split; [done|].
      intros (_ & _ & fr' & [= <-] & Henc'). congruence.
    + intros e. split; [done|].
      intros (_ & _ & [[=]|(fr' & [= <-] & Henc')]). congruence.
  - split.
    + intros buf. split; [done|].
      intros (_ & _ & fr' & [= <-] & Henc'). congruence.
    + intros e. split.
      * intros [= <-]. eauto 6.
      * intros (_ & _ & [[=]|(fr' & [= <-] & Henc')]). congruence.
Qed.

(** X5. The file name is the capture time to the second.  Two frames saved
    under the same stamp leave one file, holding the later frame: what
    the directory is after both saves is what it is after the second
    alone.  Files under other names are as they were. *)
Theorem save_frame_same_stamp_overwrites (env1 env2 : iter_env) (b1 b2 : string)
    (w : world) :
  save_fault env1 = None →
  save_fault env2 = None →
  stamp env1 = stamp env2 →
  let w1 := (save_frame env1 b1 w).1 in
  let w2 := (save_frame env2 b2 w1).1 in
  cam_dir w2 = cam_dir (save_frame env2 b2 w).1
  ∧ cam_dir w2 !! (stamp env2 +:+ ".jpg") = Some (mkFile (clock env2) b2)
  ∧ (∀ name, name ≠ stamp env2 +:+ ".jpg" → cam_dir w2 !! name = cam_dir w !! name).
Proof.
  intros H1 H2 Hs. cbn zeta.
  rewrite !(LoopProofs.run_save_frame _ _ _ H1), !(LoopProofs.run_save_frame _ _ _ H2).
  cbn [fst cam_dir]. rewrite Hs. split; [apply insert_insert_eq|]. split.
  - apply lookup_insert_eq.
  - intros name Hne. rewrite !lookup_insert_ne by done. done.
Qed.

Lemma save_frame_same_stamp_overwrites_witness :
  let env1 := mkIterEnv LoopProofs.working_camera "20261103_120100" None
                (Qc_of_Z 1000000) (λ d, (map_to_list d).*1) in
  let env2 := mkIterEnv LoopProofs.working_camera "20261103_120100" None
                (Qc_of_Z 1000000) (λ d, (map_to_list d).*1) in
  let w := LoopProofs.example_world in
  save_fault env1 = None
  ∧ save_fault env2 = None
  ∧ stamp env1 = stamp env2
  ∧ let w1 := (save_frame env1 "first" w).1 in
    let w2 := (save_frame env2 "second" w1).1 in
    cam_dir w2 = cam_dir (save_frame env2 "second" w).1
    ∧ cam_dir w2 !! (stamp env2 +:+ ".jpg") = Some (mkFile (clock env2) "second")
    ∧ (∀ name, name ≠ stamp env2 +:+ ".jpg" → cam_dir w2 !! name = cam_dir w !! name).
Proof.
  cbn zeta. split; [reflexivity|]. split; [reflexivity|]. split; [reflexivity|].
  apply (save_frame_same_stamp_overwrites
           (mkIterEnv LoopProofs.working_camera "20261103_120100" None
              (Qc_of_Z 1000000) (λ d, (map_to_list d).*1))
           (mkIterEnv LoopProofs.working_camera "20261103_120100" None
              (Qc_of_Z 1000000) (λ d, (map_to_list d).*1))
           "first" "second" LoopProofs.example_world); reflexivity.
Defined.

(** *** The loop goes on *)




End CameraExtras.

(** ** More on the retention sweep *)

Module SweepExtras.
Import CameraMonitor.

(** The directory without its frames older than the cutoff. *)
Definition swept (cutoff : Qc) (d : dir) : dir :=
  filter (λ kv, ¬ (glob_match_jpg kv.1 = true ∧ (mtime kv.2 < cutoff)%Qc)) d.

Lemma swept_Some (cutoff : Qc) (d : dir) (name : string) (f : file) :
  swept cutoff d !! name = Some f ↔
  d !! name = Some f ∧ ¬ (glob_match_jpg name = true ∧ (mtime f < cutoff)%Qc).
Proof. unfold swept. by rewrite map_lookup_filter_Some. Qed.

Lemma cleanup_is_swept (now keep_hours : Qc) (listing : list string) (d : dir) :
  lists_dir listing d →
  cleanup_old_images now keep_hours listing d
  = (swept (sweep_cutoff now keep_hours) d, Ok tt).
Proof.
  intros Hl. unfold cleanup_old_images.
  destruct (SweepProofs.cleanup_loop_spec (sweep_cutoff now keep_hours)
              (glob_jpg listing) d) as (d' & Hrun & Hd').
  { apply glob_jpg_NoDup. by eapply lists_dir_NoDup. }
  { intros p [_ Hp]%elem_of_glob_jpg. by eapply lists_dir_elem_of. }
  rewrite Hrun. f_equal. apply map_eq. intros name. apply option_eq. intros f.
  rewrite Hd', swept_Some, SweepProofs.kept_Some.
  split; intros [Hf Hn]; (split; [done|]); intros [Hm Hold]; apply Hn.
  - split; [|done]. apply elem_of_glob_jpg. split; [done|].
    eapply lists_dir_elem_of; [done|]. by exists f.
  - split; [|done]. by apply elem_of_glob_jpg in Hm as [Hm _].
Qed.

(** X7. The sweep does not depend on the order in which the system lists the
    directory, and sweeping again changes nothing: a second sweep at the
    same or a later time, with the same retention, leaves what one sweep
    at the later time leaves. *)
Theorem sweep_again_is_one_sweep (now now' keep_hours : Qc)
    (l l' l1 : list string) (d : dir) :
  lists_dir l d →
  lists_dir l' d →
  lists_dir l1 (cleanup_old_images now keep_hours l d).1 →
  (now ≤ now')%Qc →
  cleanup_old_images now keep_hours l' d = cleanup_old_images now keep_hours l d
  ∧ cleanup_old_images now keep_hours l1 (cleanup_old_images now keep_hours l d).1
    = cleanup_old_images now keep_hours l d
  ∧ cleanup_old_images now' keep_hours l1 (cleanup_old_images now keep_hours l d).1
    = cleanup_old_images now' keep_hours l d.
Proof.
  intros Hl Hl' Hl1 Hle. rewrite (cleanup_is_swept _ _ l d Hl) in *. cbn [fst] in Hl1.
  rewrite (cleanup_is_swept _ _ l' d Hl'), !(cleanup_is_swept _ _ l1 _ Hl1).
  rewrite (cleanup_is_swept _ _ l d Hl).
  assert (Hcut : (sweep_cutoff now keep_hours ≤ sweep_cutoff now' keep_hours)%Qc).
  { unfold sweep_cutoff, Qcminus. by apply Qcplus_le_mono_r. }
  assert (Hcomp : ∀ c c', (c ≤ c')%Qc → swept c' (swept c d) = swept c' d).
  { intros c c' Hc. apply map_eq. intros name. apply option_eq. intros f.
    rewrite !swept_Some. split.
    - by intros [[Hf _] Hn].
    - intros [Hf Hn]. split; [split; [done|]|done].
      intros [Hm Hold]. apply Hn. split; [done|].
      eapply Qclt_le_trans; done. }
  split; [done|]. split; f_equal; by apply Hcomp.
Qed.

(** X8. A file that [*.jpg] does not match, such as a file with another
    extension or a hidden one, outlives every sweep, however old it is
    and whatever the retention. *)
Theorem sweep_spares_other_files (now keep_hours : Qc) (listing : list string)
    (d : dir) (name : string) :
  lists_dir listing d →
  glob_match_jpg name = false →
  (cleanup_old_images now keep_hours listing d).1 !! name = d !! name.
Proof.
  intros Hl Hm. rewrite (cleanup_is_swept _ _ listing d Hl). cbn [fst].
  apply option_eq. intros f. rewrite swept_Some. split; [by intros [? _]|].
  intros Hf. split; [done|]. intros [Hm' _]. congruence.
Qed.

Lemma sweep_again_is_one_sweep_witness :
  let d := SweepProofs.example_dir in
  let l := (map_to_list d).*1 in
  let now := Qc_of_Z 1000000 in
  let now' := Qc_of_Z 1003600 in
  let keep := Qc_of_Z 24 in
  let l1 := (map_to_list (cleanup_old_images now keep l d).1).*1 in
  lists_dir l d
  ∧ lists_dir l1 (cleanup_old_images now keep l d).1
  ∧ (now ≤ now')%Qc
  ∧ cleanup_old_images now keep l d = cleanup_old_images now keep l d
  ∧ cleanup_old_images now keep l1 (cleanup_old_images now keep l d).1
    = cleanup_old_images now keep l d
  ∧ cleanup_old_images now' keep l1 (cleanup_old_images now keep l d).1
    = cleanup_old_images now' keep l d.
Proof.
  cbn zeta.
  assert (H1 : lists_dir (map_to_list SweepProofs.example_dir).*1 SweepProofs.example_dir)
    by (unfold lists_dir; reflexivity).
  assert (H2 : lists_dir
                 (map_to_list (cleanup_old_images (Qc_of_Z 1000000) (Qc_of_Z 24)
                                 (map_to_list SweepProofs.example_dir).*1
                                 SweepProofs.example_dir).1).*1
                 (cleanup_old_images (Qc_of_Z 1000000) (Qc_of_Z 24)
                    (map_to_list SweepProofs.example_dir).*1
                    SweepProofs.example_dir).1)
    by (unfold lists_dir; reflexivity).
  assert (H3 : (Qc_of_Z 1000000 ≤ Qc_of_Z 1003600)%Qc) by (vm_compute; discriminate).
  split; [exact H1|]. split; [exact H2|]. split; [exact H3|].
  exact (sweep_again_is_one_sweep (Qc_of_Z 1000000) (Qc_of_Z 1003600) (Qc_of_Z 24)
           _ _ _ SweepProofs.example_dir H1 H1 H2 H3).
Defined.

Lemma sweep_spares_other_files_witness :
  lists_dir (map_to_list SweepProofs.example_dir).*1 SweepProofs.example_dir
  ∧ glob_match_jpg "notes.txt" = false
  ∧ (cleanup_old_images (Qc_of_Z 1000000) (Qc_of_Z 24)
       (map_to_list SweepProofs.example_dir).*1 SweepProofs.example_dir).1
      !! "notes.txt"
    = SweepProofs.example_dir !! "notes.txt".
Proof.
  split; [unfold lists_dir; reflexivity|]. split; [reflexivity|].
  apply (sweep_spares_other_files (Qc_of_Z 1000000) (Qc_of_Z 24)
           (map_to_list SweepProofs.example_dir).*1 SweepProofs.example_dir
           "notes.txt"); [unfold lists_dir; reflexivity | reflexivity].
Defined.

End SweepExtras.

(** ** From the camera monitor to the bridge *)

Module FrameFlow.
Import LabBridge.

Lemma length_append (a b : string) :
  String.length (a +:+ b) = (String.length a + String.length b)%nat.
Proof.
  induction a as [|c a IH]; [reflexivity|].
  change (String c a +:+ b) with (String c (a +:+ b)). cbn [String.length].
  by rewrite IH.
Qed.

Lemma substring_skip (a b : string) (m : nat) :
  substring (String.length a) m (a +:+ b) = substring 0 m b.
Proof. induction a as [|c a IH]; [reflexivity|]. exact IH. Qed.

Lemma substring_whole (b : string) : substring 0 (String.length b) b = b.
Proof.
  induction b as [|c b IH]; [reflexivity|]. cbn [String.length substring].
  by rewrite IH.
Qed.

Lemma ends_with_append (a suf : string) : ends_with suf (a +:+ suf) = true.
Proof.
  unfold ends_with. rewrite length_append.
  replace (String.length a + String.length suf - String.length suf)%nat
    with (String.length a) by lia.
  rewrite substring_skip, substring_whole, String.eqb_refl, andb_true_r.
  apply Nat.leb_le. lia.
Qed.

(** A stamp that is not empty and does not begin with a dot gives a name
    that [*.jpg] matches. *)
Lemma stamp_name_matches (stamp : string) :
  stamp ≠ "" → starts_with "." stamp = false →
  glob_match_jpg (stamp +:+ ".jpg") = true.
Proof.
  intros Hne Hdot. unfold glob_match_jpg. rewrite ends_with_append, andb_true_r.
  destruct stamp as [|c rest]; [done|].
  change (String c rest +:+ ".jpg") with (String c (rest +:+ ".jpg")).
  cbn in *. rewrite andb_true_r in *. by rewrite Hdot.
Qed.

(** X9. A frame that the camera monitor saved under a name not below any
    frame already there is what the bridge serves as the latest frame,
    byte for byte. *)
Theorem saved_frame_is_served (env : CameraMonitor.iter_env) (b : string)
    (cw : CameraMonitor.world) (bw : world) (listing : list string) :
  CameraMonitor.save_fault env = None →
  CameraMonitor.stamp env ≠ "" →
  starts_with "." (CameraMonitor.stamp env) = false →
  (∀ name, LatestProofs.is_frame (CameraMonitor.cam_dir cw) name →
           str_le name (CameraMonitor.stamp env +:+ ".jpg")) →
  camera_dir bw = CameraMonitor.cam_dir (CameraMonitor.save_frame env b cw).1 →
  lists_dir listing (camera_dir bw) →
  serve (camera_latest listing) bw = (bw, SendFile "image/jpeg" b).
Proof.
  intros Hsave Hne Hdot Hmax Hdir Hl.
  rewrite (LoopProofs.run_save_frame env b cw Hsave) in Hdir. cbn in Hdir.
  set (new := CameraMonitor.stamp env +:+ ".jpg") in *.
  assert (Hnew : LatestProofs.is_frame (camera_dir bw) new).
  { split; [by apply stamp_name_matches|]. rewrite Hdir, lookup_insert_eq. eauto. }
  unfold serve. rewrite LatestProofs.run_camera_latest.
  destruct (get_latest_image_path listing) as [top|] eqn:Htop.
  - destruct (LatestProofs.get_latest_image_path_Some listing _ top Hl Htop)
      as [[Hm [f Hf]] Htopmax].
    assert (top = new) as ->.
    { apply (anti_symm str_le); [|by apply Htopmax].
      destruct (decide (top = new)) as [->|Hdiff]; [reflexivity|].
      apply Hmax. split; [done|]. rewrite Hdir, lookup_insert_ne in Hf by done.
      by exists f. }
    rewrite Hdir, lookup_insert_eq. done.
  - exfalso. by eapply (LatestProofs.get_latest_image_path_None listing _ Hl).
Qed.

Lemma saved_frame_is_served_witness :
  let env := CameraMonitor.mkIterEnv LoopProofs.working_camera "20261103_120100"
               None (Qc_of_Z 1000000) (λ d, (map_to_list d).*1) in
  let cw := LoopProofs.example_world in
  let bw := mkWorld (CameraMonitor.cam_dir (CameraMonitor.save_frame env "jpeg bytes" cw).1)
              None None in
  CameraMonitor.save_fault env = None
  ∧ CameraMonitor.stamp env ≠ ""
  ∧ starts_with "." (CameraMonitor.stamp env) = false
  ∧ lists_dir (map_to_list (camera_dir bw)).*1 (camera_dir bw)
  ∧ serve (camera_latest (map_to_list (camera_dir bw)).*1) bw
    = (bw, SendFile "image/jpeg" "jpeg bytes").
Proof.
  cbn zeta. split; [reflexivity|]. split; [discriminate|]. split; [reflexivity|].
  split; [unfold lists_dir; reflexivity|].
  apply (saved_frame_is_served
           (CameraMonitor.mkIterEnv LoopProofs.working_camera "20261103_120100"
              None (Qc_of_Z 1000000) (λ d, (map_to_list d).*1))
           "jpeg bytes" LoopProofs.example_world).
  - reflexivity.
  - discriminate.
  - reflexivity.
  - intros name [Hm [f Hf]].
    assert (Hin : name ∈ (map_to_list (CameraMonitor.cam_dir LoopProofs.example_world)).*1).
    { apply (lists_dir_elem_of _ (CameraMonitor.cam_dir LoopProofs.example_world));
        [unfold lists_dir; reflexivity | by exists f]. }
    assert (Hnames : (map_to_list (CameraMonitor.cam_dir LoopProofs.example_world)).*1
                     = ["notes.txt"; "20261103_120000.jpg"; "20260101_000000.jpg"])
      by (vm_compute; reflexivity).
    rewrite Hnames in Hin. rewrite !elem_of_cons in Hin. rewrite elem_of_nil in Hin.
    destruct Hin as [->|[->|[->|[]]]]; [discriminate Hm | reflexivity | reflexivity].
  - reflexivity.
  - unfold lists_dir. reflexivity.
Defined.

End FrameFlow.

(** ** More on the sensor reader *)

Module SensorExtras.
Import SensorReader.

(** What an EZO sensor sends for a reading: the text, byte by byte. *)
Definition encode (s : string) : list Z :=
  (λ c, Z.of_N (N_of_ascii c)) <$> list_ascii_of_string s.

(** The text has no NUL character in it. *)
Definition nul_free (s : string) : Prop :=
  Forall (λ c, c ≠ Ascii.zero) (list_ascii_of_string s).

Section WithEnvironment.

Variable py_float : string → option Qc.
Variable str_float : Qc → string.
Variable HAS_REQUESTS : bool.

(** The [try] block of [main]'s loop: read, log, check.  [ts] is
    [datetime.now().isoformat()]. *)
Definition iteration (cfg : config) (st : option bus * bool) (ts : string)
    (u_ph u_temp : Qc) (w : world) : world * list string :=
  let '(ph, temp) := acquire py_float (sensors cfg) st u_ph u_temp in
  let w1 := write_csv ts ph temp w in
  check_alerts str_float HAS_REQUESTS ph temp cfg w1.

End WithEnvironment.

(** X10. Startup ends in one of three ways and never with both a bus and
    simulation: simulation is on exactly when the configuration asks for
    it or the library is there and opening the bus raises; there is a bus
    exactly when the library is there, simulation is not asked for and
    the bus opens. *)
Theorem startup_outcomes (env : startup_env) (cfg : sensor_cfg) :
  ((startup env cfg).2 = true ↔
     simulate cfg = true ∨ (HAS_I2C env = true ∧ ∃ e, open_bus env = Raise e))
  ∧ (is_Some (startup env cfg).1 ↔
       HAS_I2C env = true ∧ simulate cfg = false ∧ ∃ b, open_bus env = Ok b)
  ∧ ¬ (is_Some (startup env cfg).1 ∧ (startup env cfg).2 = true).
Proof.
  unfold startup.
  destruct (HAS_I2C env), (simulate cfg), (open_bus env) as [b|e]; cbn.
  all: split; [split|split; [split|]].
  all: try (intros [Hb Hs]; first [discriminate Hs | by destruct Hb]).
  all: try (intros _; first [by left | right; eauto]; fail).
  all: try (intros [Hs|[Hh [e' He]]]; congruence).
  all: try (intros [b' Hb]; discriminate Hb).
  all: try (intros (Hh & Hs & b' & Hb); congruence).
  all: try (intros _; eauto; fail).
  all: try discriminate.
  all: try (intros _; split; [done|]; split; [done|]; eauto; fail).
Qed.

(** X11. In simulation the bus plays no part: an enabled sensor yields a
    whole number of hundredths, from 6.50 to 7.50 for the pH and from
    22.00 to 26.00 for the temperature, and a disabled one yields
    nothing. *)
Theorem simulated_readings_in_range (py_float : string → option Qc)
    (cfg : sensor_cfg) (b : option bus) (u_ph u_temp : Qc) :
  (Qc_of_Z 0 ≤ u_ph)%Qc → (u_ph < Qc_of_Z 1)%Qc →
  (Qc_of_Z 0 ≤ u_temp)%Qc → (u_temp < Qc_of_Z 1)%Qc →
  match (acquire py_float cfg (b, true) u_ph u_temp).1 with
  | Some v => ph_enabled cfg = true
              ∧ ∃ n : Z, (650 ≤ n ≤ 750)%Z ∧ v = (Qc_of_Z n / Qc_of_Z 100)%Qc
  | None => ph_enabled cfg = false
  end
  ∧ match (acquire py_float cfg (b, true) u_ph u_temp).2 with
    | Some v => temp_enabled cfg = true
                ∧ ∃ n : Z, (2200 ≤ n ≤ 2600)%Z ∧ v = (Qc_of_Z n / Qc_of_Z 100)%Qc
    | None => temp_enabled cfg = false
    end.
Proof.
  intros Hp0 Hp1 Ht0 Ht1. unfold acquire. cbn [fst snd].
  destruct (StartupProofs.read_ph_simulated py_float b u_ph Hp0 Hp1) as (n & Hn & ->).
  destruct (StartupProofs.read_temperature_simulated py_float b u_temp Ht0 Ht1)
    as (m & Hm & ->).
  split.
  - destruct (ph_enabled cfg); [|done]. split; [done|]. by exists n.
  - destruct (temp_enabled cfg); [|done]. split; [done|]. by exists m.
Qed.

Lemma simulated_readings_in_range_witness :
  (Qc_of_Z 0 ≤ Qc_of_decimal 0 25)%Qc ∧ (Qc_of_decimal 0 25 < Qc_of_Z 1)%Qc
  ∧ (Qc_of_Z 0 ≤ Qc_of_decimal 0 75)%Qc ∧ (Qc_of_decimal 0 75 < Qc_of_Z 1)%Qc
  ∧ match (acquire (λ _, None) default_sensor_cfg (None, true)
             (Qc_of_decimal 0 25) (Qc_of_decimal 0 75)).1 with
    | Some v => ph_enabled default_sensor_cfg = true
                ∧ ∃ n : Z, (650 ≤ n ≤ 750)%Z ∧ v = (Qc_of_Z n / Qc_of_Z 100)%Qc
    | None => ph_enabled default_sensor_cfg = false
    end
  ∧ match (acquire (λ _, None) default_sensor_cfg (None, true)
             (Qc_of_decimal 0 25) (Qc_of_decimal 0 75)).2 with
    | Some v => temp_enabled default_sensor_cfg = true
                ∧ ∃ n : Z, (2200 ≤ n ≤ 2600)%Z ∧ v = (Qc_of_Z n / Qc_of_Z 100)%Qc
    | None => temp_enabled default_sensor_cfg = false
    end.
Proof.
  assert (H1 : (Qc_of_Z 0 ≤ Qc_of_decimal 0 25)%Qc) by (vm_compute; discriminate).
  assert (H2 : (Qc_of_decimal 0 25 < Qc_of_Z 1)%Qc) by (vm_compute; reflexivity).
  assert (H3 : (Qc_of_Z 0 ≤ Qc_of_decimal 0 75)%Qc) by (vm_compute; discriminate).
  assert (H4 : (Qc_of_decimal 0 75 < Qc_of_Z 1)%Qc) by (vm_compute; reflexivity).
  split; [exact H1|]. split; [exact H2|]. split; [exact H3|]. split; [exact H4|].
  exact (simulated_readings_in_range (λ _, None) default_sensor_cfg None
           (Qc_of_decimal 0 25) (Qc_of_decimal 0 75) H1 H2 H3 H4).
Defined.

(** *** The reply of a sensor *)

Lemma chr_encode (c : ascii) : chr (Z.of_N (N_of_ascii c)) = c.
Proof. unfold chr. by rewrite N2Z.id, ascii_N_embedding. Qed.

Lemma encode_nonzero (c : ascii) : c ≠ Ascii.zero → Z.of_N (N_of_ascii c) ≠ 0%Z.
Proof.
  intros Hc Hz. apply Hc. rewrite <- (ascii_N_embedding c).
  replace (N_of_ascii c) with 0%N by lia. reflexivity.
Qed.

Lemma value_str_padded (status : Z) (s : string) (padding : nat) :
  nul_free s →
  value_str (status :: encode s ++ replicate padding 0%Z) = s.
Proof.
  intros Hs. unfold value_str. cbn [tail]. rewrite filter_app.
  replace (filter (λ b : Z, b ≠ 0%Z) (replicate padding 0%Z)) with (@nil Z).
  2:{ induction padding as [|k IH]; [done|]. cbn [replicate].
      by rewrite filter_cons_False by (intros Hne; by apply Hne). }
  rewrite app_nil_r. rewrite <- (string_of_list_ascii_of_string s) at 2.
  f_equal. unfold encode, nul_free in *.
  induction (list_ascii_of_string s) as [|c l IH]; [done|].
  apply Forall_cons in Hs as [Hc Hl]. rewrite fmap_cons.
  rewrite filter_cons_True by (by apply encode_nonzero).
  rewrite fmap_cons, chr_encode. f_equal. by apply IH.
Qed.

(** X12. A block that holds a status byte, the text of the reading and NUL
    padding decodes to what [float] makes of exactly that text when the
    status is 1, and to nothing for any other status; a transfer that
    raises gives nothing either.  [read_i2c_sensor] never raises. *)
Theorem read_i2c_sensor_decodes (py_float : string → option Qc) (status : Z)
    (s : string) (padding : nat) (addr : Z) (e : exn) :
  nul_free s →
  read_i2c_sensor py_float (λ _, Ok (status :: encode s ++ replicate padding 0%Z)) addr
  = (if bool_decide (status = 1%Z) then py_float s else None)
  ∧ read_i2c_sensor py_float (λ _, Raise e) addr = None
  ∧ read_i2c_sensor py_float (λ _, Ok []) addr = None.
Proof.
  intros Hs. split; [|done]. unfold read_i2c_sensor.
  case_bool_decide; [|done]. by rewrite value_str_padded.
Qed.

Lemma read_i2c_sensor_decodes_witness :
  nul_free "7.02"
  ∧ read_i2c_sensor (λ s, if bool_decide (s = "7.02") then Some (Qc_of_decimal 7 2) else None)
      (λ _, Ok (1%Z :: encode "7.02" ++ replicate 11 0%Z)) PH_I2C_ADDR
    = (if bool_decide (1%Z = 1%Z) then Some (Qc_of_decimal 7 2) else None)
  ∧ read_i2c_sensor (λ s, if bool_decide (s = "7.02") then Some (Qc_of_decimal 7 2) else None)
      (λ _, Raise OSError) PH_I2C_ADDR = None
  ∧ read_i2c_sensor (λ s, if bool_decide (s = "7.02") then Some (Qc_of_decimal 7 2) else None)
      (λ _, Ok []) PH_I2C_ADDR = None.
Proof.
  assert (Hs : nul_free "7.02").
  { unfold nul_free. cbn. repeat constructor; discriminate. }
  split; [exact Hs|].
  exact (read_i2c_sensor_decodes
           (λ s, if bool_decide (s = "7.02") then Some (Qc_of_decimal 7 2) else None)
           1%Z "7.02" 11 PH_I2C_ADDR OSError Hs).
Defined.

(** *** Alerts at and within the bounds *)

Definition within (range : Qc * Qc) (v : option Qc) : Prop :=
  match v with
  | Some x => (range.1 ≤ x)%Qc ∧ (x ≤ range.2)%Qc
  | None => True
  end.

Lemma out_of_range_false (v lo hi : Qc) :
  (lo ≤ v)%Qc → (v ≤ hi)%Qc → out_of_range v lo hi = false.
Proof.
  intros Hlo Hhi. unfold out_of_range.
  rewrite !bool_decide_eq_false_2; [done| |]; by apply Qcle_ngt.
Qed.

(** X13. The bounds belong to the range: when every value that is present
    lies within its range, the bounds included, [check_alerts] returns
    no alert, sends nothing and changes nothing. *)
Theorem readings_within_range_are_silent (str_float : Qc → string)
    (HAS_REQUESTS : bool) (ph temp : option Qc) (cfg : config) (w : world) :
  within (ph_range (sensors cfg)) ph →
  within (temp_range (sensors cfg)) temp →
  check_alerts str_float HAS_REQUESTS ph temp cfg w = (w, []).
Proof.
  intros Hph Htemp. unfold check_alerts, alerts_of, within in *.
  destruct (ph_range (sensors cfg)) as [lo hi], (temp_range (sensors cfg)) as [tlo thi].
  cbn [fst snd] in *.
  destruct ph as [v|], temp as [t|];
    rewrite ?(out_of_range_false v lo hi) by tauto;
    rewrite ?(out_of_range_false t tlo thi) by tauto; reflexivity.
Qed.

Lemma readings_within_range_are_silent_witness :
  within (ph_range (sensors default_config)) (Some (Qc_of_Z 4))
  ∧ within (temp_range (sensors default_config)) (Some (Qc_of_Z 45))
  ∧ check_alerts (λ _, "x") true (Some (Qc_of_Z 4)) (Some (Qc_of_Z 45))
      default_config (mkWorld None [])
    = (mkWorld None [], []).
Proof.
  assert (H1 : within (ph_range (sensors default_config)) (Some (Qc_of_Z 4)))
    by (split; vm_compute; discriminate).
  assert (H2 : within (temp_range (sensors default_config)) (Some (Qc_of_Z 45)))
    by (split; vm_compute; discriminate).
  split; [exact H1|]. split; [exact H2|].
  exact (readings_within_range_are_silent (λ _, "x") true (Some (Qc_of_Z 4))
           (Some (Qc_of_Z 45)) default_config (mkWorld None []) H1 H2).
Defined.

Lemma hundredths_between (n lo hi : Z) :
  (lo * 100 ≤ n)%Z → (n ≤ hi * 100)%Z →
  (Qc_of_Z lo ≤ Qc_of_Z n / Qc_of_Z 100)%Qc ∧ (Qc_of_Z n / Qc_of_Z 100 ≤ Qc_of_Z hi)%Qc.
Proof.
  intros Hlo Hhi.
  assert (H1 : (inject_Z lo * inject_Z 100 <= inject_Z n)%Q)
    by (rewrite <- inject_Z_mult, <- Zle_Qle; lia).
  assert (H2 : (inject_Z n <= inject_Z hi * inject_Z 100)%Q)
    by (rewrite <- inject_Z_mult, <- Zle_Qle; lia).
  unfold Qcle, Qcdiv, Qcmult, Qcinv, Q2Qc, Qc_of_Z. cbn [this].
  rewrite !Qred_correct.
  change (/ inject_Z 100)%Q with (1 # 100)%Q. change (inject_Z 100) with (100 # 1)%Q in *.
  split; lra.
Qed.

(** X14. With the ranges of the default configuration the simulated values
    never raise an alert: an iteration in simulation logs its reading and
    sends nothing. *)
Theorem simulation_is_silent_by_default (py_float : string → option Qc)
    (str_float : Qc → string) (HAS_REQUESTS : bool) (b : option bus)
    (ts : string) (u_ph u_temp : Qc) (w : world) :
  (Qc_of_Z 0 ≤ u_ph)%Qc → (u_ph < Qc_of_Z 1)%Qc →
  (Qc_of_Z 0 ≤ u_temp)%Qc → (u_temp < Qc_of_Z 1)%Qc →
  let out := iteration py_float str_float HAS_REQUESTS default_config (b, true)
               ts u_ph u_temp w in
  out.2 = [] ∧ outbox out.1 = outbox w
  ∧ ∃ ph temp, csv_file out.1
               = Some (default [] (csv_file w)
                         ++ rows_written (negb (csv_exists w)) ts (Some ph) (Some temp)).
Proof.
  intros Hp0 Hp1 Ht0 Ht1. cbn zeta. unfold iteration, acquire.
  change (ph_enabled (sensors default_config)) with true.
  change (temp_enabled (sensors default_config)) with true.
  destruct (StartupProofs.read_ph_simulated py_float b u_ph Hp0 Hp1) as (n & Hn & ->).
  destruct (StartupProofs.read_temperature_simulated py_float b u_temp Ht0 Ht1)
    as (m & Hm & ->).
  assert (Hsilent : alerts_of str_float (Some (Qc_of_Z n / Qc_of_Z 100)%Qc)
                      (Some (Qc_of_Z m / Qc_of_Z 100)%Qc) (sensors default_config) = []).
  { unfold alerts_of.
    change (ph_range (sensors default_config)) with (Qc_of_Z 4, Qc_of_Z 10).
    change (temp_range (sensors default_config)) with (Qc_of_Z 15, Qc_of_Z 45).
    cbv beta iota zeta.
    rewrite !out_of_range_false; [done|..];
      first [apply (hundredths_between n 4 10); lia
            |apply (hundredths_between m 15 45); lia]. }
  unfold check_alerts. rewrite Hsilent. cbn [fst snd].
  split; [done|]. split; [done|]. eauto.
Qed.

Lemma simulation_is_silent_by_default_witness :
  (Qc_of_Z 0 ≤ Qc_of_decimal 0 25)%Qc ∧ (Qc_of_decimal 0 25 < Qc_of_Z 1)%Qc
  ∧ (Qc_of_Z 0 ≤ Qc_of_decimal 0 75)%Qc ∧ (Qc_of_decimal 0 75 < Qc_of_Z 1)%Qc
  ∧ let out := iteration (λ _, None) (λ _, "x") true default_config (None, true)
                 "2026-11-03T12:00:00" (Qc_of_decimal 0 25) (Qc_of_decimal 0 75)
                 (mkWorld None []) in
    out.2 = [] ∧ outbox out.1 = outbox (mkWorld None [])
    ∧ ∃ ph temp, csv_file out.1
                 = Some (default [] (csv_file (mkWorld None []))
                           ++ rows_written (negb (csv_exists (mkWorld None [])))
                                "2026-11-03T12:00:00" (Some ph) (Some temp)).
Proof.
  assert (H1 : (Qc_of_Z 0 ≤ Qc_of_decimal 0 25)%Qc) by (vm_compute; discriminate).
  assert (H2 : (Qc_of_decimal 0 25 < Qc_of_Z 1)%Qc) by (vm_compute; reflexivity).
  assert (H3 : (Qc_of_Z 0 ≤ Qc_of_decimal 0 75)%Qc) by (vm_compute; discriminate).
  assert (H4 : (Qc_of_decimal 0 75 < Qc_of_Z 1)%Qc) by (vm_compute; reflexivity).
  split; [exact H1|]. split; [exact H2|]. split; [exact H3|]. split; [exact H4|].
  exact (simulation_is_silent_by_default (λ _, None) (λ _, "x") true None
           "2026-11-03T12:00:00" (Qc_of_decimal 0 25) (Qc_of_decimal 0 75)
           (mkWorld None []) H1 H2 H3 H4).
Defined.

(** X15. A sensor that is switched off in the configuration leaves its field
    of the logged row empty and never causes an alert of its kind, with
    hardware or in simulation; the row is logged all the same. *)
Theorem disabled_ph_is_blank_and_silent (py_float : string → option Qc)
    (str_float : Qc → string) (HAS_REQUESTS : bool) (cfg : config)
    (st : option bus * bool) (ts : string) (u_ph u_temp : Qc) (w : world) :
  ph_enabled (sensors cfg) = false →
  let out := iteration py_float str_float HAS_REQUESTS cfg st ts u_ph u_temp w in
  AlertProofs.count_alerts AlertProofs.is_ph_alert out.2 = 0%nat
  ∧ ∃ temp, csv_file out.1
            = Some (default [] (csv_file w)
                      ++ rows_written (negb (csv_exists w)) ts None temp).
Proof.
  intros Hoff. cbn zeta. unfold iteration, acquire. destruct st as [b sim].
  rewrite Hoff. split.
  - rewrite AlertProofs.check_alerts_parts, AlertProofs.count_alerts_app.
    cbn [AlertProofs.ph_part].
    by rewrite (proj1 (AlertProofs.count_temp_part str_float _ _)).
  - eexists. unfold check_alerts.
    destruct (alerts_of _ _ _ _) as [|a rest]; [reflexivity|].
    destruct HAS_REQUESTS; reflexivity.
Qed.

Lemma disabled_ph_is_blank_and_silent_witness :
  let cfg := mkConfig (mkSensorCfg false true (Qc_of_Z 10) (Qc_of_Z 4, Qc_of_Z 10)
                         (Qc_of_Z 15, Qc_of_Z 45) true) "192.168.1.100:8000" in
  ph_enabled (sensors cfg) = false
  ∧ let out := iteration (λ _, None) (λ _, "x") true cfg (None, true)
                 "2026-11-03T12:00:00" (Qc_of_decimal 0 25) (Qc_of_decimal 0 75)
                 (mkWorld None []) in
    AlertProofs.count_alerts AlertProofs.is_ph_alert out.2 = 0%nat
    ∧ ∃ temp, csv_file out.1
              = Some (default [] (csv_file (mkWorld None []))
                        ++ rows_written (negb (csv_exists (mkWorld None [])))
                             "2026-11-03T12:00:00" None temp).
Proof.
  cbn zeta. split; [reflexivity|].
  apply (disabled_ph_is_blank_and_silent (λ _, None) (λ _, "x") true
           (mkConfig (mkSensorCfg false true (Qc_of_Z 10) (Qc_of_Z 4, Qc_of_Z 10)
                        (Qc_of_Z 15, Qc_of_Z 45) true) "192.168.1.100:8000")
           (None, true) "2026-11-03T12:00:00" (Qc_of_decimal 0 25)
           (Qc_of_decimal 0 75) (mkWorld None [])).
  reflexivity.
Defined.

End SensorExtras.

(** ** More on the bridge *)

Module BridgeExtras.
Import LabBridge.

(** [get_latest_sensor_reading]: the last row of the file, [None] when
    there is no file or no row. *)
Definition get_latest_sensor_reading (w : world) : option row_dict :=
  match sensor_csv w with
  | None => None
  | Some csv_rows => last (DictReader csv_rows)
  end.

(** [get_uptime]: [secs] is the first number in [/proc/uptime]; any
    failure to read it gives ["unknown"].  [hours] is [int(secs // 3600)]
    and [mins] is [int((secs % 3600) // 60)]. *)
Definition floor_div (x y : Qc) : Z := Qfloor (x / y)%Qc.

Definition uptime_hours (secs : Qc) : Z := floor_div secs (Qc_of_Z 3600).

Definition uptime_mins (secs : Qc) : Z :=
  floor_div (secs - Qc_of_Z 3600 * Qc_of_Z (uptime_hours secs))%Qc (Qc_of_Z 60).

Definition get_uptime (str_int : Z → string) (proc_uptime : result Qc) : string :=
  match proc_uptime with
  | Ok secs => str_int (uptime_hours secs) +:+ "h " +:+ str_int (uptime_mins secs) +:+ "m"
  | Raise _ => "unknown"
  end.

(** Requests to [/alert] one after another, each with its body and the
    time it arrives. *)
Fixpoint post_alerts (py_repr : json → string) (reqs : list (option json * string))
    (w : world) : world :=
  match reqs with
  | [] => w
  | (body, ts) :: rest =>
      post_alerts py_repr rest (serve (receive_alert py_repr body ts) w).1
  end.

End BridgeExtras.

Module BridgeProofs.
Import LabBridge BridgeExtras.

(** *** The window of the history query *)

(** X16. For a clock within the range of [datetime], the cutoff of the history
    query exists exactly when [now] minus the hours is within that range
    too, and then it is that date; otherwise computing it raises
    [OverflowError]. *)
Theorem history_cutoff_in_range (hours now : Z) :
  (0 ≤ now < MAX_US)%Z →
  history_cutoff hours now
  = if bool_decide (0 ≤ now - hours * 3600000000 < MAX_US)%Z
    then Ok (now - hours * 3600000000)%Z
    else Raise OverflowError.
Proof.
  intros Hnow. case_bool_decide as Hc.
  - by apply HistoryProofs.history_cutoff_ok.
  - by apply HistoryProofs.history_cutoff_overflow.
Qed.

Lemma history_cutoff_in_range_witness :
  (0 ≤ HistoryProofs.example_now < MAX_US)%Z
  ∧ history_cutoff 24 HistoryProofs.example_now
    = if bool_decide (0 ≤ HistoryProofs.example_now - 24 * 3600000000 < MAX_US)%Z
      then Ok (HistoryProofs.example_now - 24 * 3600000000)%Z
      else Raise OverflowError.
Proof.
  assert (H : (0 ≤ HistoryProofs.example_now < MAX_US)%Z)
    by (unfold HistoryProofs.example_now, MAX_US; lia).
  split; [exact H|].
  exact (history_cutoff_in_range 24 HistoryProofs.example_now H).
Defined.

(** *** Uptime *)

Lemma floor_div_bounds (x : Qc) (k : Z) :
  (0 < k)%Z →
  (Qc_of_Z (floor_div x (Qc_of_Z k) * k) ≤ x)%Qc
  ∧ (x < Qc_of_Z (floor_div x (Qc_of_Z k) * k + k))%Qc.
Proof.
  intros Hk. unfold floor_div, Qcle, Qclt, Qcdiv, Qcmult, Qcinv, Q2Qc.
  cbn [this Qc_of_Z]. rewrite (Qfloor_comp _ _ (Qred_correct _)).
  rewrite (Qfloor_comp _ (this x / inject_Z k)%Q).
  2:{ unfold Qdiv. by rewrite Qred_correct. }
  set (y := (this x / inject_Z k)%Q).
  assert (Hk' : (inject_Z 0 < inject_Z k)%Q) by (by rewrite <- Zlt_Qlt).
  change (inject_Z 0) with 0%Q in Hk'.
  assert (Hy : (y * inject_Z k == this x)%Q).
  { unfold y. rewrite Qmult_comm. apply Qmult_div_r. intros H0.
    rewrite H0 in Hk'. by apply Qlt_irrefl in Hk'. }
  split.
  - rewrite inject_Z_mult, <- Hy.
    apply Qmult_le_compat_r; [apply Qfloor_le|by apply Qlt_le_weak].
  - replace (Qfloor y * k + k)%Z with ((Qfloor y + 1) * k)%Z by lia.
    rewrite inject_Z_mult, <- Hy. apply Qmult_lt_compat_r; [done|apply Qlt_floor].
Qed.

(** X17. The two numbers [get_uptime] prints determine the uptime to the
    minute: the minutes are from 0 to 59, and the uptime is at least
    [hours] hours and [mins] minutes and less than a minute more. *)
Theorem uptime_to_the_minute (str_int : Z → string) (secs : Qc) :
  let h := uptime_hours secs in
  let m := uptime_mins secs in
  get_uptime str_int (Ok secs) = str_int h +:+ "h " +:+ str_int m +:+ "m"
  ∧ (0 ≤ m < 60)%Z
  ∧ (Qc_of_Z (3600 * h + 60 * m) ≤ secs)%Qc
  ∧ (secs < Qc_of_Z (3600 * h + 60 * m + 60))%Qc.
Proof.
  cbn zeta. split; [reflexivity|]. unfold uptime_mins, uptime_hours.
  set (h := floor_div secs (Qc_of_Z 3600)).
  set (r := (secs - Qc_of_Z 3600 * Qc_of_Z h)%Qc).
  set (m := floor_div r (Qc_of_Z 60)).
  destruct (floor_div_bounds secs 3600) as [Hh1 Hh2]; [lia|]. fold h in Hh1, Hh2.
  destruct (floor_div_bounds r 60) as [Hm1 Hm2]; [lia|]. fold m in Hm1, Hm2.
  assert (Hr : this r == this secs - inject_Z 3600 * inject_Z h).
  { unfold r, Qcminus, Qcplus, Qcopp, Qcmult, Q2Qc. cbn [this Qc_of_Z].
    rewrite !Qred_correct. reflexivity. }
  unfold Qcle, Qclt in *. cbn [this Qc_of_Z] in *.
  rewrite ?inject_Z_plus, ?inject_Z_mult in *. rewrite Hr in Hm1, Hm2.
  change (inject_Z 3600) with (3600 # 1) in *.
  change (inject_Z 60) with (60 # 1) in *.
  assert (Hm : (-1 < m < 60)%Z).
  { rewrite !Zlt_Qlt. change (inject_Z (-1)) with (-1 # 1).
    change (inject_Z 60) with (60 # 1). split; lra. }
  split; [lia|]. split; lra.
Qed.

(** *** Alerts without a usable message *)

Section WithRepr.

Variable py_repr : json → string.

(** X18. A request without a JSON body, with a body that is falsy ([null],
    [false], [0], [""], [[]], [{}]) or with an object that has no
    [message] is logged and acknowledged as ["Unknown alert"], with
    status 200. *)
Theorem receive_alert_unknown (body : option json) (ts : string) (w : world) :
  body = None
  ∨ (∃ j, body = Some j ∧ truthy j = false)
  ∨ (∃ fields, body = Some (JObj fields) ∧ fields_get fields "message" = None) →
  serve (receive_alert py_repr body ts) w
  = (append_log (ts +:+ " | Unknown alert" +:+ LF) w,
     JsonResponse 200
       (JObj [("status", JStr "received"); ("message", JStr "Unknown alert")])).
Proof.
  intros [->|[(j & -> & Hj)|(fields & -> & Hf)]].
  - reflexivity.
  - unfold serve, receive_alert. rewrite Hj. reflexivity.
  - unfold serve, receive_alert. destruct (truthy (JObj fields)).
    + io_run. rewrite Hf. reflexivity.
    + reflexivity.
Qed.

(** X19. A body that is truthy and not an object (a string, a number, [true],
    a list that is not empty) has no [.get]: the handler raises before it
    writes, the client gets a 500 and the alert log is as it was. *)
Theorem receive_alert_not_an_object (j : json) (ts : string) (w : world) :
  truthy j = true →
  (∀ fields, j ≠ JObj fields) →
  serve (receive_alert py_repr (Some j) ts) w = (w, InternalServerError).
Proof.
  intros Hj Hobj. unfold serve, receive_alert. rewrite Hj.
  destruct j as [| | | | |fields]; try reflexivity. by destruct (Hobj fields).
Qed.

(** X20. The alert log only grows: after any sequence of requests, well
    formed or not, what was in the log before is still its beginning,
    and neither the frames nor the readings have been touched. *)
Theorem alert_log_only_grows (reqs : list (option json * string)) (w : world) :
  ∃ added,
    default "" (alerts_log (post_alerts py_repr reqs w))
      = default "" (alerts_log w) +:+ added
    ∧ camera_dir (post_alerts py_repr reqs w) = camera_dir w
    ∧ sensor_csv (post_alerts py_repr reqs w) = sensor_csv w.
Proof.
  revert w. induction reqs as [|[body ts] reqs IH]; intros w.
  - exists "". by rewrite append_nil_r.
  - cbn [post_alerts].
    assert (Hstep : ∃ added1,
              default "" (alerts_log (serve (receive_alert py_repr body ts) w).1)
                = default "" (alerts_log w) +:+ added1
              ∧ camera_dir (serve (receive_alert py_repr body ts) w).1 = camera_dir w
              ∧ sensor_csv (serve (receive_alert py_repr body ts) w).1 = sensor_csv w).
    { unfold serve, receive_alert.
      destruct (match body with
                | Some j => if truthy j then j else JObj []
                | None => JObj []
                end) as [| | | | |fields];
        try (exists ""; by rewrite append_nil_r).
      io_run. eexists. cbn. split; [reflexivity|done]. }
    destruct Hstep as (added1 & H1 & H2 & H3).
    destruct (IH (serve (receive_alert py_repr body ts) w).1) as (added & H4 & H5 & H6).
    exists (added1 +:+ added). rewrite H4, H1, H5, H2, H6, H3.
    by rewrite append_assoc.
Qed.

End WithRepr.

Lemma receive_alert_unknown_witness :
  (Some (JObj [("text", JStr "hello")]) = None
   ∨ (∃ j, Some (JObj [("text", JStr "hello")]) = Some j ∧ truthy j = false)
   ∨ (∃ fields, Some (JObj [("text", JStr "hello")]) = Some (JObj fields)
                ∧ fields_get fields "message" = None))
  ∧ serve (receive_alert (λ _, "") (Some (JObj [("text", JStr "hello")]))
             "2026-11-03T12:00:00") (mkWorld ∅ None None)
    = (append_log ("2026-11-03T12:00:00" +:+ " | Unknown alert" +:+ LF)
         (mkWorld ∅ None None),
       JsonResponse 200
         (JObj [("status", JStr "received"); ("message", JStr "Unknown alert")])).
Proof.
  assert (H : Some (JObj [("text", JStr "hello")]) = None
              ∨ (∃ j, Some (JObj [("text", JStr "hello")]) = Some j ∧ truthy j = false)
              ∨ (∃ fields, Some (JObj [("text", JStr "hello")]) = Some (JObj fields)
                           ∧ fields_get fields "message" = None)).
  { right. right. exists [("text", JStr "hello")]. split; reflexivity. }
  split; [exact H|].
  exact (receive_alert_unknown (λ _, "") _ "2026-11-03T12:00:00" (mkWorld ∅ None None) H).
Defined.

Lemma receive_alert_not_an_object_witness :
  truthy (JArr [JStr "fire"]) = true
  ∧ serve (receive_alert (λ _, "") (Some (JArr [JStr "fire"])) "2026-11-03T12:00:00")
      (mkWorld ∅ None (Some "earlier"))
    = (mkWorld ∅ None (Some "earlier"), InternalServerError).
Proof.
  split; [reflexivity|].
  apply (receive_alert_not_an_object (λ _, "") (JArr [JStr "fire"])
           "2026-11-03T12:00:00" (mkWorld ∅ None (Some "earlier")));
    [reflexivity | discriminate].
Defined.

(** *** Files that are no frames *)

Lemma glob_jpg_same_frames (l l' : list string) (d d' : dir) :
  lists_dir l d → lists_dir l' d' →
  (∀ name, glob_match_jpg name = true → is_Some (d !! name) ↔ is_Some (d' !! name)) →
  glob_jpg l ≡ₚ glob_jpg l'.
Proof.
  intros Hl Hl' Hsame. apply NoDup_Permutation.
  - apply glob_jpg_NoDup. by eapply lists_dir_NoDup.
  - apply glob_jpg_NoDup. by eapply lists_dir_NoDup.
  - intros name. rewrite !elem_of_glob_jpg.
    rewrite (lists_dir_elem_of l d name Hl), (lists_dir_elem_of l' d' name Hl').
    split; intros [Hm Hin]; (split; [done|]); by apply (Hsame name Hm).
Qed.

(** X21. A file that [*.jpg] does not match never becomes the latest frame,
    whatever its name: putting such a file into the camera directory, or
    overwriting one, leaves the answer of the latest-frame query as it
    was. *)
Theorem other_files_do_not_change_latest (l l' : list string) (w : world)
    (name : string) (f : file) :
  glob_match_jpg name = false →
  lists_dir l (camera_dir w) →
  lists_dir l' (<[name := f]> (camera_dir w)) →
  (serve (camera_latest l')
     (mkWorld (<[name := f]> (camera_dir w)) (sensor_csv w) (alerts_log w))).2
  = (serve (camera_latest l) w).2.
Proof.
  intros Hm Hl Hl'. unfold serve. rewrite !LatestProofs.run_camera_latest.
  cbn [snd camera_dir].
  assert (Hperm : glob_jpg l ≡ₚ glob_jpg l').
  { eapply glob_jpg_same_frames; [done..|]. intros x Hx.
    rewrite lookup_insert_ne; [done|]. intros ->. congruence. }
  assert (Hpath : get_latest_image_path l' = get_latest_image_path l).
  { unfold get_latest_image_path. f_equal. apply (Sorted_unique str_le).
    - apply Sorted_merge_sort; apply _.
    - apply Sorted_merge_sort; apply _.
    - unfold sorted. by rewrite !merge_sort_Permutation. }
  rewrite Hpath. destruct (get_latest_image_path l) as [top|] eqn:Htop; [|done].
  destruct (LatestProofs.get_latest_image_path_Some l _ top Hl Htop) as [[Htm _] _].
  rewrite lookup_insert_ne; [done|]. intros ->. congruence.
Qed.

Lemma other_files_do_not_change_latest_witness :
  let w := LatestProofs.example_world in
  let f := mkFile (Qc_of_Z 1000000) "not a frame" in
  glob_match_jpg "zzz.png" = false
  ∧ lists_dir (map_to_list (camera_dir w)).*1 (camera_dir w)
  ∧ lists_dir (map_to_list (<["zzz.png" := f]> (camera_dir w))).*1
      (<["zzz.png" := f]> (camera_dir w))
  ∧ (serve (camera_latest (map_to_list (<["zzz.png" := f]> (camera_dir w))).*1)
       (mkWorld (<["zzz.png" := f]> (camera_dir w)) (sensor_csv w) (alerts_log w))).2
    = (serve (camera_latest (map_to_list (camera_dir w)).*1) w).2.
Proof.
  cbn zeta. split; [reflexivity|]. split; [unfold lists_dir; reflexivity|].
  split; [unfold lists_dir; reflexivity|].
  apply (other_files_do_not_change_latest _ _ LatestProofs.example_world "zzz.png"
           (mkFile (Qc_of_Z 1000000) "not a frame"));
    [reflexivity | unfold lists_dir; reflexivity | unfold lists_dir; reflexivity].
Defined.

End BridgeProofs.

(** ** More on the reading history *)

Module HistoryExtras.
Import LabBridge HistoryProofs.

Section WithParser.

Variable fromisoformat : string → iso_parse.

Abbreviation sensors_history := (sensors_history fromisoformat).
Abbreviation in_window := (in_window fromisoformat).
Abbreviation plain_row := (plain_row fromisoformat).

(** The answer for a log of rows as the poller writes them. *)
Lemma history_plain_response (hours_arg : option Z) (now : Z)
    (rows : list (list string)) (w : world) :
  (0 ≤ now < MAX_US)%Z →
  (0 ≤ now - default 24%Z hours_arg * 3600000000 < MAX_US)%Z →
  forallb plain_row rows = true →
  sensor_csv w = Some (std_header :: rows) →
  serve (sensors_history hours_arg now) w
  = (w, csv_response
          (join_lines
             (header_line
              :: (line_of <$> filter (λ r, in_window
                                             (now - default 24%Z hours_arg * 3600000000) r
                                           = true) rows)))).
Proof.
  intros Hnow Hcut Hplain Hcsv. rewrite serve_sensors_history.
  rewrite (history_cutoff_ok _ now Hcut Hnow). cbn [mbind result_bind].
  rewrite Hcsv, (select_rows_plain _ _ _ Hplain). cbn [fmap result_fmap answer].
  rewrite table_of_lines, (plain_rows_render fromisoformat); [done|].
  by apply forallb_filter.
Qed.

Lemma in_window_mono (c1 c2 : Z) (row : list string) :
  (c2 ≤ c1)%Z → in_window c1 row = true → in_window c2 row = true.
Proof.
  intros Hc. unfold HistoryProofs.in_window. destruct row as [|ts rest]; [done|].
  destruct (fromisoformat ts); try done.
  rewrite !bool_decide_eq_true. lia.
Qed.

Lemma filter_sublist_mono {A} (P Q : A → Prop) `{∀ x, Decision (P x)}
    `{∀ x, Decision (Q x)} (l : list A) :
  (∀ x, P x → Q x) → filter P l `sublist_of` filter Q l.
Proof.
  intros HPQ. induction l as [|x l IH]; [done|].
  destruct (decide (P x)) as [HP|HP].
  - rewrite (filter_cons_True P) by done. rewrite (filter_cons_True Q) by auto.
    by apply sublist_skip.
  - rewrite (filter_cons_False P) by done. destruct (decide (Q x)).
    + rewrite (filter_cons_True Q) by done. by apply sublist_cons.
    + by rewrite (filter_cons_False Q) by done.
Qed.

(** X22. A longer window never loses a row: the rows the history query
    returns for a window are, in the same order, among those it returns
    for any longer window, and both are rows of the log in log order. *)
Theorem history_longer_window_keeps_rows (h1 h2 now : Z)
    (rows : list (list string)) (w : world) :
  (0 ≤ now < MAX_US)%Z →
  (0 ≤ now - h1 * 3600000000 < MAX_US)%Z →
  (0 ≤ now - h2 * 3600000000 < MAX_US)%Z →
  (h1 ≤ h2)%Z →
  forallb plain_row rows = true →
  sensor_csv w = Some (std_header :: rows) →
  ∃ rows1 rows2,
    (serve (sensors_history (Some h1) now) w).2
      = csv_response (join_lines (header_line :: (line_of <$> rows1)))
    ∧ (serve (sensors_history (Some h2) now) w).2
      = csv_response (join_lines (header_line :: (line_of <$> rows2)))
    ∧ rows1 `sublist_of` rows2
    ∧ rows2 `sublist_of` rows.
Proof.
  intros Hnow Hc1 Hc2 Hh Hplain Hcsv.
  rewrite (history_plain_response (Some h1) now rows w Hnow Hc1 Hplain Hcsv).
  rewrite (history_plain_response (Some h2) now rows w Hnow Hc2 Hplain Hcsv).
  eexists _, _. split; [reflexivity|]. split; [reflexivity|]. split.
  - apply filter_sublist_mono. intros r. apply in_window_mono. cbn. lia.
  - apply sublist_filter.
Qed.

(** *** Rows that make the query fail *)

Lemma select_rows_raises (cutoff : Z) (reader : list row_dict) (d : row_dict) :
  d ∈ reader →
  LabBridge.row_in_window fromisoformat cutoff d = Raise TypeError →
  (∀ d', d' ∈ reader → ∀ e, LabBridge.row_in_window fromisoformat cutoff d' = Raise e
                            → e = TypeError) →
  LabBridge.select_rows fromisoformat cutoff reader = Raise TypeError.
Proof.
  induction reader as [|r reader IH]; intros Hin Hd Hall.
  - by apply elem_of_nil in Hin.
  - cbn [LabBridge.select_rows].
    destruct (LabBridge.row_in_window fromisoformat cutoff r) as [keep|e] eqn:Hr.
    + cbn [mbind result_bind]. rewrite IH; [done| |done|].
      * apply elem_of_cons in Hin as [->|Hin]; [congruence|done].
      * intros d' Hd'. apply Hall. by right.
    + cbn [mbind result_bind]. f_equal. apply (Hall r); [by left|done].
Qed.

Lemma row_in_window_std (cutoff : Z) (ts : string) (rest : list string) (e : exn) :
  LabBridge.row_in_window fromisoformat cutoff (dict_of std_header (ts :: rest))
    = Raise e →
  e = TypeError.
Proof.
  unfold LabBridge.row_in_window. rewrite timestamp_of_row.
  destruct (fromisoformat ts); [done|done|]. by intros [= <-].
Qed.

(** X23. A timestamp with a UTC offset cannot be compared with the cutoff,
    which has none: one such row anywhere in the log makes the whole
    query fail with a 500, however many good rows there are. *)
Theorem history_fails_on_aware_timestamp (hours_arg : option Z) (now : Z)
    (rows : list (list string)) (ts : string) (rest : list string) (t off : Z)
    (w : world) :
  (0 ≤ now < MAX_US)%Z →
  (0 ≤ now - default 24%Z hours_arg * 3600000000 < MAX_US)%Z →
  sensor_csv w = Some (std_header :: rows) →
  (ts :: rest) ∈ rows →
  fromisoformat ts = IsoAware t off →
  serve (sensors_history hours_arg now) w = (w, InternalServerError).
Proof.
  intros Hnow Hcut Hcsv Hin Hts. rewrite serve_sensors_history.
  rewrite (history_cutoff_ok _ now Hcut Hnow). cbn [mbind result_bind].
  rewrite Hcsv.
  rewrite (select_rows_raises _ _ (dict_of std_header (ts :: rest))); [done| | |].
  - unfold DictReader. apply list_elem_of_fmap. exists (ts :: rest).
    split; [done|]. by apply list_elem_of_filter.
  - unfold LabBridge.row_in_window. by rewrite timestamp_of_row, Hts.
  - unfold DictReader. intros d' [r [-> Hr]]%list_elem_of_fmap e.
    apply list_elem_of_filter in Hr as [Hne _].
    destruct r as [|ts' rest']; [done|]. apply row_in_window_std.
Qed.

(** *** Rows of another length *)

Definition field_text (fields : list string) (i : nat) : string :=
  default "None" (fields !! i).

Lemma dict_of_std_lookups (ts : string) (rest : list string) :
  dict_of std_header (ts :: rest) !! "ph" = Some (rest !! 0%nat)
  ∧ dict_of std_header (ts :: rest) !! "temp_c" = Some (rest !! 1%nat).
Proof.
  destruct rest as [|ph [|temp rest]]; unfold dict_of, std_header; cbn.
  - split.
    + rewrite lookup_insert_ne by done. apply lookup_insert_eq.
    + apply lookup_insert_eq.
  - split.
    + rewrite lookup_insert_ne by done. apply lookup_insert_eq.
    + apply lookup_insert_eq.
  - rewrite drop_ge by (cbn; lia). cbn. split.
    + rewrite lookup_insert_ne by done. apply lookup_insert_eq.
    + apply lookup_insert_eq.
Qed.

(** X24. The table always has three columns.  A row that is too short is
    filled up with the text [None], and of a row that is too long only
    the first three fields are shown. *)
Theorem history_line_has_three_fields (ts : string) (rest : list string) :
  render_row (dict_of std_header (ts :: rest))
  = ts +:+ "," +:+ field_text rest 0 +:+ "," +:+ field_text rest 1.
Proof.
  unfold render_row, get_str, field_text.
  rewrite timestamp_of_row.
  destruct (dict_of_std_lookups ts rest) as [-> ->].
  by destruct (rest !! 0%nat), (rest !! 1%nat).
Qed.

(** *** A file without the timestamp column *)

(** X25. When the first row of the file does not name a [timestamp] column,
    as when the file was made before the poller first wrote to it, no row
    can be dated: the answer is the header alone, with status 200,
    whatever the rows are. *)
Theorem history_without_timestamp_column (hours_arg : option Z) (now : Z)
    (header : list string) (rows : list (list string)) (w : world) :
  (0 ≤ now < MAX_US)%Z →
  (0 ≤ now - default 24%Z hours_arg * 3600000000 < MAX_US)%Z →
  "timestamp" ∉ header →
  sensor_csv w = Some (header :: rows) →
  serve (sensors_history hours_arg now) w = (w, csv_response (header_line +:+ LF)).
Proof.
  intros Hnow Hcut Hk Hcsv. rewrite serve_sensors_history.
  rewrite (history_cutoff_ok _ now Hcut Hnow). cbn [mbind result_bind].
  rewrite Hcsv. unfold DictReader.
  assert (Hsel : ∀ rs, LabBridge.select_rows fromisoformat
                         (now - default 24%Z hours_arg * 3600000000)
                         (dict_of header <$> rs) = Ok []).
  { induction rs as [|r rs IH]; [done|]. rewrite fmap_cons.
    rewrite select_rows_cons_false; [exact IH|].
    unfold LabBridge.row_in_window. by rewrite dict_of_absent. }
  by rewrite Hsel.
Qed.

End WithParser.

Lemma history_longer_window_keeps_rows_witness :
  (0 ≤ example_now < MAX_US)%Z
  ∧ (0 ≤ example_now - 24 * 3600000000 < MAX_US)%Z
  ∧ (0 ≤ example_now - 72 * 3600000000 < MAX_US)%Z
  ∧ (24 ≤ 72)%Z
  ∧ forallb (HistoryProofs.plain_row iso_layout) example_rows = true
  ∧ ∃ rows1 rows2,
      (serve (LabBridge.sensors_history iso_layout (Some 24%Z) example_now)
         example_world).2
        = csv_response (join_lines (header_line :: (line_of <$> rows1)))
      ∧ (serve (LabBridge.sensors_history iso_layout (Some 72%Z) example_now)
           example_world).2
        = csv_response (join_lines (header_line :: (line_of <$> rows2)))
      ∧ rows1 `sublist_of` rows2
      ∧ rows2 `sublist_of` example_rows.
Proof.
  assert (H0 : (0 ≤ example_now < MAX_US)%Z) by (unfold example_now, MAX_US; lia).
  assert (H1 : (0 ≤ example_now - 24 * 3600000000 < MAX_US)%Z)
    by (unfold example_now, MAX_US; lia).
  assert (H2 : (0 ≤ example_now - 72 * 3600000000 < MAX_US)%Z)
    by (unfold example_now, MAX_US; lia).
  assert (H3 : (24 ≤ 72)%Z) by lia.
  assert (H4 : forallb (HistoryProofs.plain_row iso_layout) example_rows = true)
    by (vm_compute; reflexivity).
  split; [exact H0|]. split; [exact H1|]. split; [exact H2|]. split; [exact H3|].
  split; [exact H4|].
  exact (history_longer_window_keeps_rows iso_layout 24 72 example_now example_rows
           example_world H0 H1 H2 H3 H4 eq_refl).
Defined.

(** A parser that also knows one timestamp with an offset. *)
Definition iso_with_offset (s : string) : iso_parse :=
  if bool_decide (s = "2026-11-03T11:00:00+00:00")
  then IsoAware 63929300400000000 0
  else iso_layout s.

Lemma history_fails_on_aware_timestamp_witness :
  let w := with_log example_world std_header
             (example_rows ++ [["2026-11-03T11:00:00+00:00"; "7.0"; "24.0"]]) in
  (0 ≤ example_now < MAX_US)%Z
  ∧ (0 ≤ example_now - default 24%Z None * 3600000000 < MAX_US)%Z
  ∧ iso_with_offset "2026-11-03T11:00:00+00:00" = IsoAware 63929300400000000 0
  ∧ serve (LabBridge.sensors_history iso_with_offset None example_now) w
    = (w, InternalServerError).
Proof.
  cbn zeta.
  assert (H0 : (0 ≤ example_now < MAX_US)%Z) by (unfold example_now, MAX_US; lia).
  assert (H1 : (0 ≤ example_now - default 24%Z None * 3600000000 < MAX_US)%Z)
    by (unfold example_now, MAX_US; cbn; lia).
  split; [exact H0|]. split; [exact H1|]. split; [reflexivity|].
  apply (history_fails_on_aware_timestamp iso_with_offset None example_now
           (example_rows ++ [["2026-11-03T11:00:00+00:00"; "7.0"; "24.0"]])
           "2026-11-03T11:00:00+00:00" ["7.0"; "24.0"] 63929300400000000 0
           (with_log example_world std_header
              (example_rows ++ [["2026-11-03T11:00:00+00:00"; "7.0"; "24.0"]]))
           H0 H1 eq_refl).
  - apply elem_of_app. right. by left.
  - reflexivity.
Defined.

Lemma history_without_timestamp_column_witness :
  let w := mkWorld ∅ (Some [ ["2026-11-03T09:00:00"; "7.0"; "24.0"];
                             ["2026-11-03T10:00:00"; "7.2"; "24.2"] ]) None in
  (0 ≤ example_now < MAX_US)%Z
  ∧ (0 ≤ example_now - default 24%Z None * 3600000000 < MAX_US)%Z
  ∧ ("timestamp" ∉ ["2026-11-03T09:00:00"; "7.0"; "24.0"])
  ∧ serve (LabBridge.sensors_history iso_layout None example_now) w
    = (w, csv_response (header_line +:+ LF)).
Proof.
  cbn zeta.
  assert (H0 : (0 ≤ example_now < MAX_US)%Z) by (unfold example_now, MAX_US; lia).
  assert (H1 : (0 ≤ example_now - default 24%Z None * 3600000000 < MAX_US)%Z)
    by (unfold example_now, MAX_US; cbn; lia).
  assert (H2 : "timestamp" ∉ ["2026-11-03T09:00:00"; "7.0"; "24.0"]).
  { rewrite !not_elem_of_cons. repeat split; try discriminate. apply not_elem_of_nil. }
  split; [exact H0|]. split; [exact H1|]. split; [exact H2|].
  exact (history_without_timestamp_column iso_layout None example_now
           ["2026-11-03T09:00:00"; "7.0"; "24.0"]
           [["2026-11-03T10:00:00"; "7.2"; "24.2"]]
           (mkWorld ∅ (Some [ ["2026-11-03T09:00:00"; "7.0"; "24.0"];
                              ["2026-11-03T10:00:00"; "7.2"; "24.2"] ]) None)
           H0 H1 H2 eq_refl).
Defined.

End HistoryExtras.

(** ** From the sensor reader to the bridge *)

Module LogFlow.
Import LabBridge.

Section WithRendering.

(** [str] of a float, as [csv.writer] applies it to a value that is no
    string. *)
Variable str_float : Qc → string.

Definition cell_text (c : SensorReader.cell) : string :=
  match c with
  | SensorReader.CStr s => s
  | SensorReader.CNum x => str_float x
  end.

(** What [csv.reader] yields for what [csv.writer] wrote: the rows with
    their fields as text; the quoting the writer adds the reader takes
    off again. *)
Definition as_read (rows : list SensorReader.csv_row) : list (list string) :=
  (λ row : SensorReader.csv_row, cell_text <$> row) <$> rows.

(** The bridge sees the file the sensor reader wrote. *)
Definition bridge_sees (sw : SensorReader.world) (bw : world) : Prop :=
  sensor_csv bw = as_read <$> SensorReader.csv_file sw.

Definition opt_text (v : option Qc) : string :=
  match v with
  | Some x => str_float x
  | None => ""
  end.

(** The fields of a reading as the bridge reads them. *)
Definition text_row (r : CsvProofs.reading) : list string :=
  [r.1.1; opt_text r.1.2; opt_text r.2].

Lemma as_read_row_of (r : CsvProofs.reading) :
  cell_text <$> CsvProofs.row_of r = text_row r.
Proof. destruct r as [[ts ph] temp]. by destruct ph, temp. Qed.

Lemma write_all_fresh (rs : list CsvProofs.reading) (sw : SensorReader.world) :
  SensorReader.csv_file sw = None →
  rs ≠ [] →
  SensorReader.csv_file (CsvProofs.write_all rs sw)
  = Some (SensorReader.header_row :: (CsvProofs.row_of <$> rs)).
Proof.
  intros Hnone Hrs. destruct rs as [|r rs]; [done|].
  cbn [CsvProofs.write_all foldl].
  destruct (CsvProofs.write_all_existing rs
              (SensorReader.write_csv r.1.1 r.1.2 r.2 sw)) as [H1 H2].
  { apply CsvProofs.write_csv_exists. }
  apply CsvProofs.rows_of_Some; [exact H1|]. unfold CsvProofs.write_all in H2.
  rewrite H2, CsvProofs.write_csv_rows.
  unfold CsvProofs.rows_of, SensorReader.csv_exists. rewrite Hnone. reflexivity.
Qed.

Lemma bridge_sees_rows (rs : list CsvProofs.reading) (sw : SensorReader.world)
    (bw : world) :
  SensorReader.csv_file sw = None →
  rs ≠ [] →
  bridge_sees (CsvProofs.write_all rs sw) bw →
  sensor_csv bw = Some (HistoryProofs.std_header :: (text_row <$> rs)).
Proof.
  intros Hnone Hrs Hsees. unfold bridge_sees in Hsees.
  rewrite (write_all_fresh rs sw Hnone Hrs) in Hsees. rewrite Hsees.
  cbn [fmap option_fmap option_map]. unfold as_read. rewrite fmap_cons.
  f_equal. f_equal. rewrite <- list_fmap_compose. apply list_fmap_ext.
  intros i r _. apply as_read_row_of.
Qed.

Lemma DictReader_text_rows (rs : list CsvProofs.reading) :
  DictReader (HistoryProofs.std_header :: (text_row <$> rs))
  = dict_of HistoryProofs.std_header <$> (text_row <$> rs).
Proof.
  unfold DictReader. f_equal. induction rs as [|r rs IH]; [done|].
  rewrite fmap_cons, filter_cons_True by done. by rewrite IH.
Qed.

(** X26. What the sensor reader logged last is what the bridge reports as the
    latest reading: after any run of [write_csv] calls that started
    without a file, the latest reading has the timestamp of the last call
    and its values as text, an empty text for a value that was absent. *)
Theorem logged_reading_is_latest (rs : list CsvProofs.reading)
    (ts : string) (ph temp : option Qc) (sw : SensorReader.world) (bw : world) :
  SensorReader.csv_file sw = None →
  bridge_sees (CsvProofs.write_all (rs ++ [(ts, ph, temp)]) sw) bw →
  ∃ d, BridgeExtras.get_latest_sensor_reading bw = Some d
       ∧ d !! "timestamp" = Some (Some ts)
       ∧ d !! "ph" = Some (Some (opt_text ph))
       ∧ d !! "temp_c" = Some (Some (opt_text temp)).
Proof.
  intros Hnone Hsees.
  assert (Hrs : rs ++ [(ts, ph, temp)] ≠ []) by (by destruct rs).
  pose proof (bridge_sees_rows _ sw bw Hnone Hrs Hsees) as Hcsv.
  exists (dict_of HistoryProofs.std_header [ts; opt_text ph; opt_text temp]).
  split.
  - unfold BridgeExtras.get_latest_sensor_reading. rewrite Hcsv, DictReader_text_rows.
    rewrite !fmap_app. change (text_row <$> [(ts, ph, temp)]) with [text_row (ts, ph, temp)].
    change (dict_of HistoryProofs.std_header <$> [text_row (ts, ph, temp)])
      with [dict_of HistoryProofs.std_header (text_row (ts, ph, temp))].
    rewrite last_snoc. reflexivity.
  - rewrite HistoryProofs.dict_of_three.
    rewrite lookup_insert_ne by done. rewrite lookup_insert_ne by done.
    rewrite lookup_insert_eq.
    rewrite lookup_insert_ne by done. rewrite lookup_insert_eq.
    rewrite lookup_insert_eq. done.
Qed.

(** Before the sensor reader has written anything there is no latest
    reading. *)
Lemma no_reading_before_first_write (sw : SensorReader.world) (bw : world) :
  SensorReader.csv_file sw = None →
  bridge_sees sw bw →
  BridgeExtras.get_latest_sensor_reading bw = None.
Proof.
  intros Hnone Hsees. unfold bridge_sees in Hsees. rewrite Hnone in Hsees.
  unfold BridgeExtras.get_latest_sensor_reading. by rewrite Hsees.
Qed.

Section WithParser.

Variable fromisoformat : string → iso_parse.

(** X27. What the sensor reader logged is what the history query serves: for
    a log written by [write_csv] alone, with timestamps that carry no
    offset, the table after the header is one line [ts,ph,temp] for each
    reading whose timestamp is at or after the cutoff, in the order in
    which the readings were logged. *)
Theorem logged_readings_are_served (rs : list CsvProofs.reading)
    (hours_arg : option Z) (now : Z) (sw : SensorReader.world) (bw : world) :
  SensorReader.csv_file sw = None →
  rs ≠ [] →
  bridge_sees (CsvProofs.write_all rs sw) bw →
  (0 ≤ now < MAX_US)%Z →
  (0 ≤ now - default 24%Z hours_arg * 3600000000 < MAX_US)%Z →
  forallb (HistoryProofs.plain_row fromisoformat) (text_row <$> rs) = true →
  serve (sensors_history fromisoformat hours_arg now) bw
  = (bw,
     csv_response
       (join_lines
          (header_line
           :: (HistoryProofs.line_of
                 <$> filter (λ r, HistoryProofs.in_window fromisoformat
                                    (now - default 24%Z hours_arg * 3600000000) r
                                  = true)
                       (text_row <$> rs))))).
Proof.
  intros Hnone Hrs Hsees Hnow Hcut Hplain.
  apply HistoryExtras.history_plain_response; [done..|].
  by eapply bridge_sees_rows.
Qed.

End WithParser.

End WithRendering.

(** A rendering of the few values of the examples. *)
Definition str_example (x : Qc) : string :=
  if bool_decide (x = SensorReader.Qc_of_decimal 7 2) then "7.02"
  else if bool_decide (x = SensorReader.Qc_of_decimal 6 98) then "6.98"
  else if bool_decide (x = SensorReader.Qc_of_decimal 24 50) then "24.5"
  else if bool_decide (x = SensorReader.Qc_of_decimal 24 60) then "24.6"
  else "0.0".

Definition example_bridge : world :=
  mkWorld ∅
    (as_read str_example
       <$> SensorReader.csv_file
             (CsvProofs.write_all CsvProofs.example_readings CsvProofs.no_file))
    None.

Lemma logged_reading_is_latest_witness :
  SensorReader.csv_file CsvProofs.no_file = None
  ∧ bridge_sees str_example
      (CsvProofs.write_all
         ([ ("2026-11-03T12:00:00.000123", Some (SensorReader.Qc_of_decimal 7 2),
             Some (SensorReader.Qc_of_decimal 24 50));
            ("2026-11-03T12:00:10.004567", None,
             Some (SensorReader.Qc_of_decimal 24 60)) ]
          ++ [("2026-11-03T12:00:20.008901", Some (SensorReader.Qc_of_decimal 6 98), None)])
         CsvProofs.no_file)
      example_bridge
  ∧ ∃ d, BridgeExtras.get_latest_sensor_reading example_bridge = Some d
         ∧ d !! "timestamp" = Some (Some "2026-11-03T12:00:20.008901")
         ∧ d !! "ph" = Some (Some (opt_text str_example (Some (SensorReader.Qc_of_decimal 6 98))))
         ∧ d !! "temp_c" = Some (Some (opt_text str_example None)).
Proof.
  split; [reflexivity|]. split; [reflexivity|].
  apply (logged_reading_is_latest str_example
           [ ("2026-11-03T12:00:00.000123", Some (SensorReader.Qc_of_decimal 7 2),
              Some (SensorReader.Qc_of_decimal 24 50));
             ("2026-11-03T12:00:10.004567", None,
              Some (SensorReader.Qc_of_decimal 24 60)) ]
           "2026-11-03T12:00:20.008901" (Some (SensorReader.Qc_of_decimal 6 98)) None
           CsvProofs.no_file example_bridge); reflexivity.
Defined.

Lemma logged_readings_are_served_witness :
  SensorReader.csv_file CsvProofs.no_file = None
  ∧ CsvProofs.example_readings ≠ []
  ∧ bridge_sees str_example
      (CsvProofs.write_all CsvProofs.example_readings CsvProofs.no_file) example_bridge
  ∧ (0 ≤ HistoryProofs.example_now < MAX_US)%Z
  ∧ (0 ≤ HistoryProofs.example_now - default 24%Z None * 3600000000 < MAX_US)%Z
  ∧ forallb (HistoryProofs.plain_row HistoryProofs.iso_layout)
      (text_row str_example <$> CsvProofs.example_readings) = true
  ∧ serve (sensors_history HistoryProofs.iso_layout None HistoryProofs.example_now)
      example_bridge
    = (example_bridge,
       csv_response
         (join_lines
            (header_line
             :: (HistoryProofs.line_of
                   <$> filter (λ r, HistoryProofs.in_window HistoryProofs.iso_layout
                                      (HistoryProofs.example_now
                                       - default 24%Z None * 3600000000) r
                                    = true)
                         (text_row str_example <$> CsvProofs.example_readings))))).
Proof.
  assert (H0 : (0 ≤ HistoryProofs.example_now < MAX_US)%Z)
    by (unfold HistoryProofs.example_now, MAX_US; lia).
  assert (H1 : (0 ≤ HistoryProofs.example_now - default 24%Z None * 3600000000
                < MAX_US)%Z)
    by (unfold HistoryProofs.example_now, MAX_US; cbn; lia).
  assert (H2 : forallb (HistoryProofs.plain_row HistoryProofs.iso_layout)
                 (text_row str_example <$> CsvProofs.example_readings) = true)
    by (vm_compute; reflexivity).
  split; [reflexivity|]. split; [discriminate|]. split; [reflexivity|].
  split; [exact H0|]. split; [exact H1|]. split; [exact H2|].
  apply (logged_readings_are_served str_example HistoryProofs.iso_layout
           CsvProofs.example_readings None HistoryProofs.example_now
           CsvProofs.no_file example_bridge);
    [reflexivity | discriminate | reflexivity | exact H0 | exact H1 | exact H2].
Defined.

Example logged_readings_as_served :
  (serve (sensors_history HistoryProofs.iso_layout None HistoryProofs.example_now)
     example_bridge).2
  = csv_response
      ("timestamp,ph,temp_c" +:+ LF
       +:+ "2026-11-03T12:00:00.000123,7.02,24.5" +:+ LF
       +:+ "2026-11-03T12:00:10.004567,,24.6" +:+ LF
       +:+ "2026-11-03T12:00:20.008901,6.98," +:+ LF).
Proof. vm_compute. reflexivity. Qed.

End LogFlow.
